(** * NetSentinel Ingestor: the log-ingestion endpoint, embedded and verified

    A shallow embedding of [services/ingestor/app]:
    - [config.py]   the [Settings] record and its defaults,
    - [schemas.py]  the request model [LogCreate] with its [Field]
                    constraints, and the response model [LogResponse],
    - [main.py]     both halves of [lifespan], [health_check] and
                    [ingest_log], together with the part of the web
                    framework that stands between a request and the
                    handler (body validation, status codes, exception
                    handlers).

    Python values are modelled as follows.  A [str] is a [string], one
    character per code point.  A parsed JSON body is a [json] tree; a
    [dict] is an association list in insertion order.  The module global
    [kafka_producer] lives in an explicit [World] that every handler
    threads through, next to the list of calls the broker client has
    received and the lines written to the logger. *)

From Stdlib Require Import ZArith NArith List String Ascii Bool Lia.
From Stdlib Require Import Decimal DecimalFacts DecimalPos DecimalN DecimalString.
Import ListNotations.
Open Scope string_scope.

Set Implicit Arguments.
Set Warnings "-register-all".

(* ================================================================== *)
(** ** JSON values and Python dicts *)

Inductive json : Type :=
| JNull
| JBool (b : bool)
| JInt (n : Z)
| JFloat (lit : string)   (* a float, carried by its [repr] *)
| JStr (s : string)
| JArr (xs : list json)
| JObj (d : list (string * json)).

Definition dict := list (string * json).

(** A float is carried by the text [repr] gives it, which is one text
    per float; [inf], [-inf] and [nan] are the floats that are not
    finite (a body may hold them: [1e400] and [NaN] are read as such). *)
Definition non_finite (lit : string) : bool :=
  String.eqb lit "inf" || String.eqb lit "-inf" || String.eqb lit "nan".

(** How [model_dump(mode='json')] renders a value typed [Any]: a float
    that is not finite becomes [None], inside lists and dicts too;
    everything else is kept. *)
Fixpoint to_jsonable (v : json) : json :=
  match v with
  | JFloat lit => if non_finite lit then JNull else JFloat lit
  | JArr xs => JArr (map to_jsonable xs)
  | JObj d =>
      JObj (map (fun kv => match kv with (k, x) => (k, to_jsonable x) end) d)
  | _ => v
  end.

(** Every float inside [v] is finite. *)
Fixpoint finite_floats (v : json) : bool :=
  match v with
  | JFloat lit => negb (non_finite lit)
  | JArr xs => forallb finite_floats xs
  | JObj d =>
      forallb (fun kv => match kv with (_, x) => finite_floats x end) d
  | _ => true
  end.

(** Induction on JSON values that reaches into lists and dicts. *)
Section JsonInduction.

Variable P : json -> Prop.
Hypothesis P_null : P JNull.
Hypothesis P_bool : forall b, P (JBool b).
Hypothesis P_int : forall n, P (JInt n).
Hypothesis P_float : forall lit, P (JFloat lit).
Hypothesis P_str : forall s, P (JStr s).
Hypothesis P_arr : forall xs, Forall P xs -> P (JArr xs).
Hypothesis P_obj :
  forall d, Forall (fun kv => P (snd kv)) d -> P (JObj d).

Fixpoint json_nested_ind (v : json) : P v :=
  match v with
  | JNull => P_null
  | JBool b => P_bool b
  | JInt n => P_int n
  | JFloat lit => P_float lit
  | JStr s => P_str s
  | JArr xs =>
      P_arr
        ((fix go (l : list json) : Forall P l :=
            match l with
            | [] => @Forall_nil json P
            | x :: t => @Forall_cons json P x t (json_nested_ind x) (go t)
            end) xs)
  | JObj d =>
      P_obj
        ((fix go (l : list (string * json))
            : Forall (fun kv => P (snd kv)) l :=
            match l with
            | [] => @Forall_nil _ (fun kv => P (snd kv))
            | kv :: t =>
                @Forall_cons _ (fun kv => P (snd kv)) kv t
                  (match kv as p return P (snd p) with
                   | (_, x) => json_nested_ind x
                   end)
                  (go t)
            end) d)
  end.

End JsonInduction.

(** [d.get(k)]: the binding of [k], if any. *)
Fixpoint dict_get (k : string) (d : dict) : option json :=
  match d with
  | [] => None
  | (k', v) :: rest => if String.eqb k k' then Some v else dict_get k rest
  end.

(** [k in d] *)
Definition dict_mem (k : string) (d : dict) : bool :=
  match dict_get k d with Some _ => true | None => false end.

(** [d[k] = v]: an existing key keeps its position, a new key goes last. *)
Fixpoint dict_set (k : string) (v : json) (d : dict) : dict :=
  match d with
  | [] => [(k, v)]
  | (k', v') :: rest =>
      if String.eqb k k' then (k', v) :: rest
      else (k', v') :: dict_set k v rest
  end.

Definition dict_keys (d : dict) : list string := map fst d.

(* ================================================================== *)
(** ** Regular expressions, as far as [pattern=] needs them

    The validation library checks [pattern=] with an unanchored search
    of its default regex engine, in which [^] holds only at the start
    of the text and [$] only at its end (no multi-line mode, and no
    special case for a final newline). *)

Inductive regex : Type :=
| Lit (w : string)
| Alt (a b : regex)
| Cat (a b : regex)
| StartText
| EndText.

Fixpoint strip_prefix (w s : string) : option string :=
  match w, s with
  | EmptyString, _ => Some s
  | String a w', String b s' =>
      if Ascii.eqb a b then strip_prefix w' s' else None
  | String _ _, EmptyString => None
  end.

(** A cursor is a position in the text: how many characters lie before
    it, and the text after it. *)
Definition cursor : Type := nat * string.

(** [run r c]: the cursors at which a match of [r] starting at [c] can
    end. *)
Fixpoint run (r : regex) (c : cursor) : list cursor :=
  match r with
  | Lit w =>
      match strip_prefix w (snd c) with
      | Some rest => [(fst c + String.length w, rest)]
      | None => []
      end
  | Alt a b => run a c ++ run b c
  | Cat a b => flat_map (run b) (run a c)
  | StartText => if Nat.eqb (fst c) 0 then [c] else []
  | EndText => match snd c with EmptyString => [c] | String _ _ => [] end
  end.

Fixpoint cursors (n : nat) (s : string) : list cursor :=
  (n, s) :: match s with
            | EmptyString => []
            | String _ t => cursors (S n) t
            end.

Definition matches_at (r : regex) (c : cursor) : bool :=
  match run r c with [] => false | _ :: _ => true end.

(** The search: is there a match starting anywhere in [s]? *)
Definition is_match (r : regex) (s : string) : bool :=
  existsb (matches_at r) (cursors 0 s).

(* ================================================================== *)
(** ** [datetime] and its renderings *)

(** [datetime.datetime]; [tzinfo] is the UTC offset in seconds of an
    aware value and [None] for a naive one. *)
Record datetime : Type := mk_datetime {
  year : N; month : N; day : N;
  hour : N; minute : N; second : N; microsecond : N;
  tzinfo : option Z
}.

(** ["%0<w>d" % n] for a natural number. *)
Definition zfill (w : nat) (n : N) : string :=
  let s := NilZero.string_of_uint (N.to_uint n) in
  string_of_list_ascii (repeat "0"%char (w - String.length s)) ++ s.

(** The offset suffix of [isoformat]: [+HH:MM], with [:SS] when the
    offset has seconds. *)
Definition format_offset (off : Z) : string :=
  let sign := if (off <? 0)%Z then "-" else "+" in
  let a := Z.to_N (Z.abs off) in
  let hh := (a / 3600)%N in
  let mm := ((a mod 3600) / 60)%N in
  let ss := (a mod 60)%N in
  sign ++ zfill 2 hh ++ ":" ++ zfill 2 mm
       ++ (if (ss =? 0)%N then "" else ":" ++ zfill 2 ss).

Definition format_clock (d : datetime) : string :=
  zfill 4 (year d) ++ "-" ++ zfill 2 (month d) ++ "-" ++ zfill 2 (day d)
    ++ "T" ++ zfill 2 (hour d) ++ ":" ++ zfill 2 (minute d)
    ++ ":" ++ zfill 2 (second d)
    ++ (if (microsecond d =? 0)%N then "" else "." ++ zfill 6 (microsecond d)).

(** [datetime.isoformat()], with the default separator and timespec. *)
Definition isoformat (d : datetime) : string :=
  format_clock d ++
    match tzinfo d with
    | None => ""
    | Some off => format_offset off
    end.

(** The offset suffix of the dump: [Z] for a zero offset, [+HH:MM]
    otherwise; seconds of an offset are not written. *)
Definition dump_offset (off : Z) : string :=
  if (off =? 0)%Z then "Z"
  else
    let sign := if (off <? 0)%Z then "-" else "+" in
    let a := Z.to_N (Z.abs off) in
    sign ++ zfill 2 (a / 3600)%N ++ ":" ++ zfill 2 ((a mod 3600) / 60)%N.

(** How [model_dump(mode='json')] renders a [datetime] field: date and
    time as [isoformat] does, the offset as [dump_offset] does. *)
Definition datetime_to_json (d : datetime) : string :=
  format_clock d ++
    match tzinfo d with
    | None => ""
    | Some off => dump_offset off
    end.

(* ================================================================== *)
(** ** [config.py] *)

Module Config.

(** [class Settings(BaseSettings)]: every field can be overridden from
    the environment, so the handlers below are stated for an arbitrary
    value of this record. *)
Record Settings : Type := mk_Settings {
  kafka_bootstrap_servers : string;
  logs_topic : string;
  app_name : string;
  app_version : string
}.

(** The declared defaults. *)
Definition defaults : Settings := {|
  kafka_bootstrap_servers := "kafka:9092";
  logs_topic := "logs-raw";
  app_name := "NetSentinel Ingestor";
  app_version := "1.0.0"
|}.

End Config.

(* ================================================================== *)
(** ** [schemas.py] *)

(** Validation error types, named as the validation library names
    them. *)
Inductive ErrorType : Type :=
| missing
| model_attributes_type
| string_type
| string_too_short
| string_too_long
| string_pattern_mismatch
| dict_type
| datetime_type
| datetime_parsing.

Record ErrorDetails : Type := mk_error {
  loc : list string;
  err_type : ErrorType
}.

(** The constraints a [Field] can put on a [str]. *)
Record StrField : Type := mk_StrField {
  min_length : option N;
  max_length : option N;
  pattern : option regex
}.

Definition below_min (c : StrField) (s : string) : bool :=
  match min_length c with
  | Some n => (N.of_nat (String.length s) <? n)%N
  | None => false
  end.

Definition above_max (c : StrField) (s : string) : bool :=
  match max_length c with
  | Some n => (n <? N.of_nat (String.length s))%N
  | None => false
  end.

Definition pattern_fails (c : StrField) (s : string) : bool :=
  match pattern c with
  | Some r => negb (is_match r s)
  | None => false
  end.

(** Validation of a constrained [str]: the value must be a string
    (numbers are not coerced), then the length bounds, then the
    pattern. *)
Definition validate_str (c : StrField) (v : json) : ErrorType + string :=
  match v with
  | JStr s =>
      if below_min c s then inl string_too_short
      else if above_max c s then inl string_too_long
      else if pattern_fails c s then inl string_pattern_mismatch
      else inr s
  | _ => inl string_type
  end.

(** Validation of [Optional[Dict[str, Any]]]: [None] passes through, an
    object is taken as it is (its keys are strings already, its values
    are unconstrained), everything else is not a dict. *)
Definition validate_optional_dict (v : json) : ErrorType + option dict :=
  match v with
  | JNull => inr None
  | JObj d => inr (Some d)
  | _ => inl dict_type
  end.

Module LogCreate.

(** [class LogCreate(BaseModel)] *)
Record t : Type := mk {
  timestamp : datetime;
  source : string;
  level : string;
  message : string;
  metadata : option dict     (* [None] is Python's [None] *)
}.

(** [source: str = Field(..., min_length=1, max_length=255)] *)
Definition source_field : StrField :=
  {| min_length := Some 1%N; max_length := Some 255%N; pattern := None |}.

(** [pattern="^(DEBUG|INFO|WARNING|ERROR|CRITICAL)$"] *)
Definition level_pattern : regex :=
  Cat StartText
    (Cat (Alt (Lit "DEBUG")
         (Alt (Lit "INFO")
         (Alt (Lit "WARNING")
         (Alt (Lit "ERROR")
              (Lit "CRITICAL")))))
         EndText).

(** [level: str = Field(..., pattern=...)] *)
Definition level_field : StrField :=
  {| min_length := None; max_length := None;
     pattern := Some level_pattern |}.

(** [message: str = Field(..., min_length=1, max_length=10000)] *)
Definition message_field : StrField :=
  {| min_length := Some 1%N; max_length := Some 10000%N; pattern := None |}.

End LogCreate.

Module LogResponse.

(** [class LogResponse(BaseModel)] *)
Record t : Type := mk {
  status : string;
  message : string
}.

(** [LogResponse()], from the declared defaults. *)
Definition default : t :=
  {| status := "accepted"; message := "Log queued for processing" |}.

(** The body the framework sends for a [response_model=LogResponse]. *)
Definition to_json (r : t) : json :=
  JObj [("status", JStr (status r)); ("message", JStr (message r))].

End LogResponse.

(** The five level names of the pattern. *)
Definition level_names : list string :=
  ["DEBUG"; "INFO"; "WARNING"; "ERROR"; "CRITICAL"].

(* ================================================================== *)
(** ** RFC 3339 timestamps

    The [datetime] validator of the validation library is a parameter of
    the development (see the section below): every general statement
    holds for any validator.  [rfc3339_datetime] is an instance for
    concrete requests only.  It reads the RFC 3339 text form
    [YYYY-MM-DD(T|t| )HH:MM:SS[.f{1,6}][Z|z|(+|-)HH:MM]], to the value
    the library reads it to.  It is narrower than the library, which
    also takes Unix numbers, a date alone, a time without seconds and
    an offset without colon; it refuses those, and the error type it
    names stands for whichever the library reports. *)

Definition digit_of (c : ascii) : option N :=
  let n := N_of_ascii c in
  if ((48 <=? n) && (n <=? 57))%N then Some (n - 48)%N else None.

(** Reads exactly [k] decimal digits. *)
Fixpoint read_digits (k : nat) (acc : N) (s : string) : option (N * string) :=
  match k with
  | O => Some (acc, s)
  | S k' =>
      match s with
      | String c rest =>
          match digit_of c with
          | Some d => read_digits k' (acc * 10 + d)%N rest
          | None => None
          end
      | EmptyString => None
      end
  end.

(** Reads between one and [k] digits of a fraction of a second and
    scales them to [k] places. *)
Fixpoint read_fraction (k : nat) (acc : N) (seen : bool) (s : string)
  : option (N * string) :=
  match k with
  | O => if seen then Some (acc, s) else None
  | S k' =>
      match s with
      | String c rest =>
          match digit_of c with
          | Some d => read_fraction k' (acc * 10 + d)%N true rest
          | None => if seen then Some (acc * 10 ^ N.of_nat k, s)%N else None
          end
      | EmptyString => if seen then Some (acc * 10 ^ N.of_nat k, s)%N else None
      end
  end.

Definition expect (c : ascii) (s : string) : option string :=
  match s with
  | String c' rest => if Ascii.eqb c c' then Some rest else None
  | EmptyString => None
  end.

Definition is_leap (y : N) : bool :=
  ((y mod 4 =? 0) && (negb (y mod 100 =? 0) || (y mod 400 =? 0)))%N.

Definition days_in_month (y m : N) : N :=
  match m with
  | 2 => if is_leap y then 29 else 28
  | 4 | 6 | 9 | 11 => 30
  | _ => 31
  end%N.

Definition valid_date (y m d : N) : bool :=
  ((1 <=? y) && (1 <=? m) && (m <=? 12) && (1 <=? d)
   && (d <=? days_in_month y m))%N.

Definition valid_time (h mi s : N) : bool :=
  ((h <=? 23) && (mi <=? 59) && (s <=? 59))%N.

Definition bind_opt {A B} (x : option A) (f : A -> option B) : option B :=
  match x with Some a => f a | None => None end.

Notation "'let?' p := x 'in' k" :=
  (bind_opt x (fun p => k))
  (at level 10, p pattern, x at level 100, k at level 200).

(** The zone designator: nothing (a naive value), [Z] or an offset. *)
Definition read_zone (s : string) : option (option Z) :=
  match s with
  | EmptyString => Some None
  | String c rest =>
      if (Ascii.eqb c "Z" || Ascii.eqb c "z")%bool then
        match rest with EmptyString => Some (Some 0%Z) | _ => None end
      else
        let? sign :=
          (if Ascii.eqb c "+" then Some 1%Z
           else if Ascii.eqb c "-" then Some (-1)%Z else None) in
        let? (hh, s1) := read_digits 2 0 rest in
        let? s2 := expect ":" s1 in
        let? (mm, s3) := read_digits 2 0 s2 in
        match s3 with
        | EmptyString =>
            if ((hh <=? 23) && (mm <=? 59))%N
            then Some (Some (sign * Z.of_N (hh * 3600 + mm * 60))%Z)
            else None
        | _ => None
        end
  end.

Definition read_separator (s : string) : option string :=
  match s with
  | String c rest =>
      if (Ascii.eqb c "T" || Ascii.eqb c "t" || Ascii.eqb c " ")%bool
      then Some rest else None
  | EmptyString => None
  end.

Definition parse_rfc3339 (s : string) : option datetime :=
  let? (y, s) := read_digits 4 0 s in
  let? s := expect "-" s in
  let? (m, s) := read_digits 2 0 s in
  let? s := expect "-" s in
  let? (d, s) := read_digits 2 0 s in
  let? s := read_separator s in
  let? (h, s) := read_digits 2 0 s in
  let? s := expect ":" s in
  let? (mi, s) := read_digits 2 0 s in
  let? s := expect ":" s in
  let? (sec, s) := read_digits 2 0 s in
  let? (us, s) :=
    (match expect "." s with
     | Some s' => read_fraction 6 0 false s'
     | None => Some (0%N, s)
     end) in
  let? tz := read_zone s in
  if valid_date y m d && valid_time h mi sec
  then Some (mk_datetime y m d h mi sec us tz)
  else None.

Definition rfc3339_datetime (v : json) : ErrorType + datetime :=
  match v with
  | JStr s =>
      match parse_rfc3339 s with
      | Some d => inr d
      | None => inl datetime_parsing
      end
  | _ => inl datetime_type
  end.

(* ================================================================== *)
(** ** The world the service runs in *)

(** What [await producer.send_and_wait(topic, value)] can come back
    with; an exception is carried by its [str()]. *)
Inductive SendOutcome : Type :=
| Acknowledged
| RaisesKafkaError (text : string)
| RaisesException (text : string).

(** The broker client.  [broker] is the far end: how a send of a given
    value to a given topic is answered. *)
Record AIOKafkaProducer : Type := mk_producer {
  bootstrap_servers : string;
  compression_type : string;
  acks : string;
  broker : string -> json -> SendOutcome
}.

Inductive LogLevel : Type := LvDebug | LvInfo | LvError.

Record World : Type := mk_World {
  kafka_producer : option AIOKafkaProducer;   (* the module global *)
  broker_calls : list (string * json);        (* sends, oldest first *)
  log_lines : list (LogLevel * string)        (* logger output, oldest first *)
}.

(** The process before its startup hook has run. *)
Definition boot : World :=
  {| kafka_producer := None; broker_calls := []; log_lines := [] |}.

(** Python exceptions, as far as the handlers tell them apart. *)
Inductive exn : Type :=
| HTTPException (status_code : Z) (detail : string)
| KafkaError (text : string)
| OtherError (text : string).

Definition str_of_Z (z : Z) : string := NilZero.string_of_int (Z.to_int z).

(** [str(e)] *)
Definition exn_str (e : exn) : string :=
  match e with
  | HTTPException c d => str_of_Z c ++ ": " ++ d
  | KafkaError t => t
  | OtherError t => t
  end.

(** Computations that read and write the world and may raise. *)
Definition M (A : Type) : Type := World -> (exn + A) * World.

Definition ret {A} (a : A) : M A := fun w => (inr a, w).

Definition raise {A} (e : exn) : M A := fun w => (inl e, w).

Definition bind {A B} (m : M A) (k : A -> M B) : M B :=
  fun w =>
    match m w with
    | (inr a, w') => k a w'
    | (inl e, w') => (inl e, w')
    end.

(** [try: m  except ... as e: h e] *)
Definition try_except {A} (m : M A) (h : exn -> M A) : M A :=
  fun w =>
    match m w with
    | (inr a, w') => (inr a, w')
    | (inl e, w') => h e w'
    end.

Notation "x <- m ;; k" := (bind m (fun x => k))
  (at level 61, m at next level, right associativity).
Notation "m ;; k" := (bind m (fun _ => k))
  (at level 61, right associativity).

Definition get_kafka_producer : M (option AIOKafkaProducer) :=
  fun w => (inr (kafka_producer w), w).

Definition set_kafka_producer (p : option AIOKafkaProducer) : M unit :=
  fun w => (inr tt, {| kafka_producer := p;
                       broker_calls := broker_calls w;
                       log_lines := log_lines w |}).

(** [logging.basicConfig(level=logging.INFO)]: debug lines are dropped. *)
Definition enabled (l : LogLevel) : bool :=
  match l with LvDebug => false | LvInfo | LvError => true end.

Definition logger_log (l : LogLevel) (text : string) : M unit :=
  fun w =>
    (inr tt,
     if enabled l
     then {| kafka_producer := kafka_producer w;
             broker_calls := broker_calls w;
             log_lines := log_lines w ++ [(l, text)] |}
     else w).

(** [await producer.send_and_wait(topic, value=value)]: one call to the
    client, which returns once the broker has acknowledged the record
    and raises otherwise. *)
Definition send_and_wait (p : AIOKafkaProducer) (topic : string) (value : json)
  : M unit :=
  fun w =>
    let w' := {| kafka_producer := kafka_producer w;
                 broker_calls := broker_calls w ++ [(topic, value)];
                 log_lines := log_lines w |} in
    match broker p topic value with
    | Acknowledged => (inr tt, w')
    | RaisesKafkaError t => (inl (KafkaError t), w')
    | RaisesException t => (inl (OtherError t), w')
    end.

(** An HTTP response: status code and JSON body. *)
Record Response : Type := mk_Response {
  status_code : Z;
  body : json
}.

Definition HTTP_200_OK : Z := 200.
Definition HTTP_202_ACCEPTED : Z := 202.
Definition HTTP_422_UNPROCESSABLE_ENTITY : Z := 422.
Definition HTTP_500_INTERNAL_SERVER_ERROR : Z := 500.
Definition HTTP_503_SERVICE_UNAVAILABLE : Z := 503.

Definition error_name (t : ErrorType) : string :=
  match t with
  | missing => "missing"
  | model_attributes_type => "model_attributes_type"
  | string_type => "string_type"
  | string_too_short => "string_too_short"
  | string_too_long => "string_too_long"
  | string_pattern_mismatch => "string_pattern_mismatch"
  | dict_type => "dict_type"
  | datetime_type => "datetime_type"
  | datetime_parsing => "datetime_parsing"
  end.

(** One entry of a 422 body, as far as it is modelled: its [type] and
    [loc].  A real entry also carries a message text and echoes the
    input it refused, so no statement about the service depends on what
    an entry holds. *)
Definition error_json (e : ErrorDetails) : json :=
  JObj [("type", JStr (error_name (err_type e)));
        ("loc", JArr (map JStr (loc e)))].

Definition result_errors {A} (name : string) (r : ErrorType + A)
  : list ErrorDetails :=
  match r with
  | inl t => [{| loc := ["body"; name]; err_type := t |}]
  | inr _ => []
  end.

(** A field declared with [...]: absent means [missing]. *)
Definition required_field {A} (name : string) (d : dict)
    (check : json -> ErrorType + A) : ErrorType + A :=
  match dict_get name d with
  | Some v => check v
  | None => inl missing
  end.

(** A field declared with a default: absent means the default, and the
    default is not validated. *)
Definition defaulted_field {A} (name : string) (d : dict) (default : A)
    (check : json -> ErrorType + A) : ErrorType + A :=
  match dict_get name d with
  | Some v => check v
  | None => inr default
  end.

Section Service.

(** The [datetime] validator of the validation library. *)
Variable validate_datetime : json -> ErrorType + datetime.

(** [settings = Settings()] *)
Variable settings : Config.Settings.

(* ---------------------------------------------------------------- *)
(** *** Validation of a request body against [LogCreate] *)

Definition check_timestamp (d : dict) : ErrorType + datetime :=
  required_field "timestamp" d validate_datetime.

Definition check_source (d : dict) : ErrorType + string :=
  required_field "source" d (validate_str LogCreate.source_field).

Definition check_level (d : dict) : ErrorType + string :=
  required_field "level" d (validate_str LogCreate.level_field).

Definition check_message (d : dict) : ErrorType + string :=
  required_field "message" d (validate_str LogCreate.message_field).

(** [default_factory=dict]: an absent [metadata] is the empty dict. *)
Definition check_metadata (d : dict) : ErrorType + option dict :=
  defaulted_field "metadata" d (Some []) validate_optional_dict.

(** Every field is checked; the errors of all failing fields are
    reported, in declaration order.  Keys the model does not declare
    are ignored.  A body of [null] counts as no body at all, any other
    body that is not an object as a value of the wrong type. *)
Definition model_validate (payload : json)
  : list ErrorDetails + LogCreate.t :=
  match payload with
  | JObj d =>
      let r1 := check_timestamp d in
      let r2 := check_source d in
      let r3 := check_level d in
      let r4 := check_message d in
      let r5 := check_metadata d in
      match r1, r2, r3, r4, r5 with
      | inr ts, inr src, inr lvl, inr msg, inr md =>
          inr (LogCreate.mk ts src lvl msg md)
      | _, _, _, _, _ =>
          inl (result_errors "timestamp" r1 ++ result_errors "source" r2
               ++ result_errors "level" r3 ++ result_errors "message" r4
               ++ result_errors "metadata" r5)%list
      end
  | JNull => inl [{| loc := ["body"]; err_type := missing |}]
  | _ => inl [{| loc := ["body"]; err_type := model_attributes_type |}]
  end.

(** [log_entry.model_dump(mode='json')]: the strings as they are, the
    timestamp as text, the values of [metadata] as [to_jsonable] has
    them. *)
Definition model_dump_json (e : LogCreate.t) : dict :=
  [("timestamp", JStr (datetime_to_json (LogCreate.timestamp e)));
   ("source", JStr (LogCreate.source e));
   ("level", JStr (LogCreate.level e));
   ("message", JStr (LogCreate.message e));
   ("metadata", match LogCreate.metadata e with
                | Some d => to_jsonable (JObj d)
                | None => JNull
                end)].

(* ---------------------------------------------------------------- *)
(** *** [main.py] *)

(** What [AIOKafkaProducer(...)] followed by [await start()] comes to. *)
Inductive StartOutcome : Type :=
| Started (far_end : string -> json -> SendOutcome)
| StartFails (text : string).

(** The startup half of [lifespan]. *)
Definition lifespan_startup (o : StartOutcome) : M unit :=
  logger_log LvInfo "Initializing Kafka producer..." ;;
  match o with
  | Started far_end =>
      set_kafka_producer
        (Some {| bootstrap_servers := Config.kafka_bootstrap_servers settings;
                 compression_type := "gzip";
                 acks := "all";
                 broker := far_end |}) ;;
      logger_log LvInfo
        ("Kafka producer connected to "
           ++ Config.kafka_bootstrap_servers settings)
  | StartFails text =>
      logger_log LvError ("Failed to initialize Kafka producer: " ++ text) ;;
      set_kafka_producer None
  end.

(** What [await kafka_producer.stop()] comes to. *)
Inductive StopOutcome : Type :=
| Stopped
| StopRaises (text : string).

(** The shutdown half of [lifespan]: the global is read, not reset.
    What [stop()] does inside the client is not part of the world. *)
Definition lifespan_shutdown (o : StopOutcome) : M unit :=
  kp <- get_kafka_producer ;;
  match kp with
  | Some _ =>
      logger_log LvInfo "Closing Kafka producer..." ;;
      (match o with
       | Stopped => ret tt
       | StopRaises text => raise (OtherError text)
       end) ;;
      logger_log LvInfo "Kafka producer closed successfully"
  | None => ret tt
  end.

(** [async def health_check()] *)
Definition health_check : M dict :=
  kp <- get_kafka_producer ;;
  let kafka_status :=
    match kp with Some _ => "connected" | None => "disconnected" end in
  ret [("status", JStr "healthy");
       ("service", JStr (Config.app_name settings));
       ("version", JStr (Config.app_version settings));
       ("kafka", JStr kafka_status)].

(** The value handed to the producer: the dumped model with its
    [timestamp] entry overwritten by [isoformat()]. *)
Definition log_data_of (log_entry : LogCreate.t) : dict :=
  let log_data := model_dump_json log_entry in
  if dict_mem "timestamp" log_data
  then dict_set "timestamp"
         (JStr (isoformat (LogCreate.timestamp log_entry))) log_data
  else log_data.

(** [async def ingest_log(log_entry: LogCreate)] *)
Definition ingest_log (log_entry : LogCreate.t) : M LogResponse.t :=
  kp <- get_kafka_producer ;;
  match kp with
  | None =>
      logger_log LvError "Kafka producer is not available" ;;
      raise (HTTPException HTTP_503_SERVICE_UNAVAILABLE
               "Log ingestion service is temporarily unavailable. Kafka is not connected.")
  | Some producer =>
      let log_data := log_data_of log_entry in
      try_except
        (send_and_wait producer (Config.logs_topic settings) (JObj log_data) ;;
         logger_log LvDebug
           ("Log ingested from source: " ++ LogCreate.source log_entry
              ++ ", level: " ++ LogCreate.level log_entry) ;;
         ret {| LogResponse.status := "accepted";
                LogResponse.message := "Log queued for processing" |})
        (fun e =>
           match e with
           | KafkaError text =>
               logger_log LvError
                 ("Kafka error during log ingestion: " ++ text) ;;
               raise (HTTPException HTTP_503_SERVICE_UNAVAILABLE
                        ("Failed to queue log for processing: " ++ text))
           | _ =>
               logger_log LvError
                 ("Unexpected error during log ingestion: " ++ exn_str e) ;;
               raise (HTTPException HTTP_500_INTERNAL_SERVER_ERROR
                        "An unexpected error occurred while processing the log")
           end)
  end.

(** [async def global_exception_handler(request, exc)] *)
Definition global_exception_handler (exc : exn) : M Response :=
  logger_log LvError ("Unhandled exception: " ++ exn_str exc) ;;
  ret {| status_code := HTTP_500_INTERNAL_SERVER_ERROR;
         body := JObj [("detail", JStr "Internal server error")] |}.

(* ---------------------------------------------------------------- *)
(** *** The routes

    What the framework does around a handler: the declared status
    code goes with a returned value, an [HTTPException] becomes its
    own status with a [detail] body, and any other exception goes to
    the global handler. *)

Definition respond {A} (declared : Z) (to_body : A -> json)
    (out : (exn + A) * World) : Response * World :=
  match out with
  | (inr a, w) => ({| status_code := declared; body := to_body a |}, w)
  | (inl (HTTPException c d), w) =>
      ({| status_code := c; body := JObj [("detail", JStr d)] |}, w)
  | (inl e, w) =>
      match global_exception_handler e w with
      | (inr r, w') => (r, w')
      | (inl _, w') =>
          ({| status_code := HTTP_500_INTERNAL_SERVER_ERROR;
              body := JStr "Internal Server Error" |}, w')
      end
  end.

(** [GET /health] *)
Definition get_health (w : World) : Response * World :=
  respond HTTP_200_OK JObj (health_check w).

(** [POST /api/v1/logs/ingest]: the body is validated against
    [LogCreate] first; the handler runs only on a valid body. *)
Definition post_ingest (payload : json) (w : World) : Response * World :=
  match model_validate payload with
  | inl errors =>
      ({| status_code := HTTP_422_UNPROCESSABLE_ENTITY;
          body := JObj [("detail", JArr (map error_json errors))] |}, w)
  | inr log_entry =>
      respond HTTP_202_ACCEPTED LogResponse.to_json (ingest_log log_entry w)
  end.

End Service.

(** The request of the schema's own example. *)
Definition example_payload : json :=
  JObj [("timestamp", JStr "2025-12-11T10:30:00Z");
        ("source", JStr "web-api");
        ("level", JStr "ERROR");
        ("message", JStr "Database connection timeout");
        ("metadata", JObj [("user_id", JStr "12345");
                           ("endpoint", JStr "/api/users");
                           ("duration_ms", JInt 5000)])].

(** A world whose producer is connected to the given far end. *)
Definition connected_to (far_end : string -> json -> SendOutcome) : World :=
  snd (lifespan_startup Config.defaults (Started far_end) boot).

(** A world whose producer failed to start. *)
Definition disconnected : World :=
  snd (lifespan_startup Config.defaults (StartFails "connection refused") boot).

(* ================================================================== *)
(** ** Vocabulary of the statements *)

Definition is_ok {E A} (r : E + A) : bool :=
  match r with inr _ => true | inl _ => false end.

Definition is_object (v : json) : bool :=
  match v with JObj _ => true | _ => false end.

Definition is_null (v : json) : bool :=
  match v with JNull => true | _ => false end.

Definition required_fields : list string :=
  ["timestamp"; "source"; "level"; "message"].

(** The ways a request body can break a constraint of [LogCreate],
    stated on the body itself: a required field is missing, the
    timestamp is not one, [source] or [message] is not a string within
    its length bounds, [level] is not one of the five names, [metadata]
    is present with a shape other than an object or [null], or the body
    is not an object at all. *)
Inductive ConstraintFailure (validate_datetime : json -> ErrorType + datetime)
  : json -> Prop :=
| not_an_object (payload : json) :
    is_object payload = false ->
    ConstraintFailure validate_datetime payload
| missing_required (d : dict) (name : string) :
    In name required_fields -> dict_get name d = None ->
    ConstraintFailure validate_datetime (JObj d)
| bad_timestamp (d : dict) (v : json) :
    dict_get "timestamp" d = Some v -> is_ok (validate_datetime v) = false ->
    ConstraintFailure validate_datetime (JObj d)
| bad_source (d : dict) (v : json) :
    dict_get "source" d = Some v ->
    (forall s, v = JStr s -> ~ (1 <= N.of_nat (String.length s) <= 255)%N) ->
    ConstraintFailure validate_datetime (JObj d)
| bad_level (d : dict) (v : json) :
    dict_get "level" d = Some v -> ~ In v (map JStr level_names) ->
    ConstraintFailure validate_datetime (JObj d)
| bad_message (d : dict) (v : json) :
    dict_get "message" d = Some v ->
    (forall s, v = JStr s -> ~ (1 <= N.of_nat (String.length s) <= 10000)%N) ->
    ConstraintFailure validate_datetime (JObj d)
| bad_metadata (d : dict) (v : json) :
    dict_get "metadata" d = Some v -> is_object v = false ->
    is_null v = false ->
    ConstraintFailure validate_datetime (JObj d).

(** The world after one more call to the broker client. *)
Definition with_call (w : World) (topic : string) (value : json) : World :=
  {| kafka_producer := kafka_producer w;
     broker_calls := broker_calls w ++ [(topic, value)];
     log_lines := log_lines w |}.

(** The world after one more line of log output. *)
Definition with_log (w : World) (l : LogLevel) (text : string) : World :=
  {| kafka_producer := kafka_producer w;
     broker_calls := broker_calls w;
     log_lines := log_lines w ++ [(l, text)] |}.

(** A string of [n] characters. *)
Definition text_of_length (n : N) : string :=
  string_of_list_ascii (repeat "x"%char (N.to_nat n)).

(** A body with the given [message] and no [metadata]. *)
Definition fields_with_message (m : string) : dict :=
  [("timestamp", JStr "2025-12-11T10:30:00Z");
   ("source", JStr "web-api");
   ("level", JStr "ERROR");
   ("message", JStr m)].

Definition payload_with_message (m : string) : json :=
  JObj (fields_with_message m).

(** A body with the given [level] and no [metadata]. *)
Definition payload_with_level (l : json) : json :=
  JObj [("timestamp", JStr "2025-12-11T10:30:00Z");
        ("source", JStr "web-api");
        ("level", l);
        ("message", JStr "Database connection timeout")].

(** A body with the given [metadata]. *)
Definition fields_with_metadata (md : json) : dict :=
  [("timestamp", JStr "2025-12-11T10:30:00Z");
   ("source", JStr "web-api");
   ("level", JStr "ERROR");
   ("message", JStr "Database connection timeout");
   ("metadata", md)].

Definition payload_with_metadata (md : json) : json :=
  JObj (fields_with_metadata md).

(** A body without a [metadata] entry. *)
Definition fields_without_metadata : dict :=
  [("timestamp", JStr "2025-12-11T10:30:00Z");
   ("source", JStr "web-api");
   ("level", JStr "ERROR");
   ("message", JStr "Database connection timeout")].

(** The validated form of [example_payload]. *)
Definition example_entry : LogCreate.t :=
  {| LogCreate.timestamp := mk_datetime 2025 12 11 10 30 0 0 (Some 0%Z);
     LogCreate.source := "web-api";
     LogCreate.level := "ERROR";
     LogCreate.message := "Database connection timeout";
     LogCreate.metadata := Some [("user_id", JStr "12345");
                                 ("endpoint", JStr "/api/users");
                                 ("duration_ms", JInt 5000)] |}.

(** A broker that acknowledges every send, and one that fails every
    send with the given error. *)
Definition acknowledging : string -> json -> SendOutcome :=
  fun _ _ => Acknowledged.

Definition failing (text : string) : string -> json -> SendOutcome :=
  fun _ _ => RaisesKafkaError text.

(** The entries of the body of [GET /health]. *)
Definition health_body (settings : Config.Settings) (w : World) : dict :=
  match body (fst (get_health settings w)) with
  | JObj d => d
  | _ => []
  end.

(** Decimal digits, for the proofs about [zfill]: one more digit in
    front of a run of digits. *)
Definition digit_cons (k : N) (d : Decimal.uint) : Decimal.uint :=
  match k with
  | 0 => D0 d | 1 => D1 d | 2 => D2 d | 3 => D3 d | 4 => D4 d
  | 5 => D5 d | 6 => D6 d | 7 => D7 d | 8 => D8 d | _ => D9 d
  end%N.

(** The [w] lowest decimal digits of [n], lowest first. *)
Fixpoint little_digits (w : nat) (n : N) : Decimal.uint :=
  match w with
  | O => Decimal.Nil
  | S w' => digit_cons (n mod 10) (little_digits w' (n / 10))
  end.

(** The same digits, highest first. *)
Definition fixed_digits (w : nat) (n : N) : Decimal.uint :=
  Decimal.rev (little_digits w n).

(** The number a run of digits denotes when read after [acc]. *)
Fixpoint value_after (acc : N) (d : Decimal.uint) : N :=
  match d with
  | Decimal.Nil => acc
  | D0 d => value_after (acc * 10 + 0) d
  | D1 d => value_after (acc * 10 + 1) d
  | D2 d => value_after (acc * 10 + 2) d
  | D3 d => value_after (acc * 10 + 3) d
  | D4 d => value_after (acc * 10 + 4) d
  | D5 d => value_after (acc * 10 + 5) d
  | D6 d => value_after (acc * 10 + 6) d
  | D7 d => value_after (acc * 10 + 7) d
  | D8 d => value_after (acc * 10 + 8) d
  | D9 d => value_after (acc * 10 + 9) d
  end.

(** The values a [datetime] object can hold: a date of the calendar in
    the years 1 to 9999, a time of day, and either no zone or an offset
    of whole minutes within a day. *)
Definition tz_well_formed (tz : option Z) : bool :=
  match tz with
  | None => true
  | Some off => ((off mod 60 =? 0) && (Z.abs off <? 86400))%Z
  end.

Definition well_formed (d : datetime) : bool :=
  valid_date (year d) (month d) (day d) && (year d <=? 9999)%N
  && valid_time (hour d) (minute d) (second d)
  && (microsecond d <? 1000000)%N
  && tz_well_formed (tzinfo d).

(** The zone suffix [isoformat] writes. *)
Definition zone_text (tz : option Z) : string :=
  match tz with Some off => format_offset off | None => "" end.

(** Requests to [POST /api/v1/logs/ingest], handled one after the
    other. *)
Fixpoint serve (validate_datetime : json -> ErrorType + datetime)
    (settings : Config.Settings) (payloads : list json) (w : World)
  : list Response * World :=
  match payloads with
  | [] => ([], w)
  | payload :: rest =>
      let (r, w1) := post_ingest validate_datetime settings payload w in
      let (rs, w2) := serve validate_datetime settings rest w1 in
      (r :: rs, w2)
  end.

(** The records of the valid bodies among [payloads], in order. *)
Fixpoint accepted_entries (validate_datetime : json -> ErrorType + datetime)
    (payloads : list json) : list LogCreate.t :=
  match payloads with
  | [] => []
  | payload :: rest =>
      match model_validate validate_datetime payload with
      | inr e => e :: accepted_entries validate_datetime rest
      | inl _ => accepted_entries validate_datetime rest
      end
  end.


(** A body with the given [source] and no [metadata]. *)
Definition fields_with_source (s : json) : dict :=
  [("timestamp", JStr "2025-12-11T10:30:00Z");
   ("source", s);
   ("level", JStr "ERROR");
   ("message", JStr "Database connection timeout")].

(** A broker that fails every send with an error that is no Kafka
    error. *)
Definition crashing (text : string) : string -> json -> SendOutcome :=
  fun _ _ => RaisesException text.

(** Three requests: the schema's example, an empty object, an INFO
    record. *)
Definition three_requests : list json :=
  [example_payload; JObj []; payload_with_level (JStr "INFO")].


(** The example record with its timestamp one hour east of UTC. *)
Definition example_entry_plus_one : LogCreate.t :=
  {| LogCreate.timestamp := mk_datetime 2025 12 11 10 30 0 0 (Some 3600%Z);
     LogCreate.source := "web-api";
     LogCreate.level := "ERROR";
     LogCreate.message := "Database connection timeout";
     LogCreate.metadata := Some [("user_id", JStr "12345");
                                 ("endpoint", JStr "/api/users");
                                 ("duration_ms", JInt 5000)] |}.

(** Every float in the metadata of the record is finite. *)
Definition finite_metadata (e : LogCreate.t) : bool :=
  match LogCreate.metadata e with
  | Some d => finite_floats (JObj d)
  | None => true
  end.

(* ================================================================== *)
(** * Properties *)

(** ** Dicts *)

Lemma dict_get_set_same (k : string) (v : json) (d : dict) :
  dict_get k (dict_set k v d) = Some v.
Proof.
  induction d as [|[k' v'] rest IH]; simpl.
  - now rewrite String.eqb_refl.
  - destruct (String.eqb k k') eqn:E; simpl; rewrite E; auto.
Qed.

Lemma dict_get_set_other (k k0 : string) (v : json) (d : dict) :
  k0 <> k -> dict_get k0 (dict_set k v d) = dict_get k0 d.
Proof.
  intros Hne.
  induction d as [|[k' v'] rest IH]; simpl.
  - destruct (String.eqb k0 k) eqn:E; auto.
    apply String.eqb_eq in E. contradiction.
  - destruct (String.eqb k k') eqn:E; simpl.
    + apply String.eqb_eq in E. subst k'.
      destruct (String.eqb k0 k) eqn:E0; auto.
      apply String.eqb_eq in E0. contradiction.
    + now rewrite IH.
Qed.

Lemma dict_keys_set_present (k : string) (v : json) (d : dict) :
  dict_mem k d = true -> dict_keys (dict_set k v d) = dict_keys d.
Proof.
  unfold dict_mem, dict_keys.
  induction d as [|[k' v'] rest IH]; simpl; [discriminate|].
  destruct (String.eqb k k') eqn:E; simpl; intros H; [reflexivity|].
  now rewrite IH.
Qed.

(** ** The pattern of [level] *)

Lemma strip_prefix_app (w s rest : string) :
  strip_prefix w s = Some rest -> s = w ++ rest.
Proof.
  revert s. induction w as [|a w IH]; intros s; simpl.
  - now intros [= ->].
  - destruct s as [|b s]; [discriminate|].
    destruct (Ascii.eqb a b) eqn:E; [|discriminate].
    apply Ascii.eqb_eq in E. subst b.
    intros H. now rewrite (IH _ H).
Qed.

Lemma string_app_empty_r (s : string) : s ++ "" = s.
Proof. induction s; simpl; congruence. Qed.

Lemma run_Lit_inv (w : string) (c c' : cursor) :
  In c' (run (Lit w) c) -> snd c = w ++ snd c'.
Proof.
  simpl. destruct (strip_prefix w (snd c)) eqn:E; simpl; [|tauto].
  intros [<-|[]]. simpl. now apply strip_prefix_app.
Qed.

Lemma run_EndText_inv (c c' : cursor) :
  In c' (run EndText c) -> c' = c /\ snd c = "".
Proof.
  simpl. destruct (snd c) eqn:E; simpl; [|tauto].
  intros [<-|[]]. auto.
Qed.

Lemma run_StartText_inv (c c' : cursor) :
  In c' (run StartText c) -> c' = c /\ fst c = 0.
Proof.
  simpl. destruct (Nat.eqb (fst c) 0) eqn:E; simpl; [|tauto].
  intros [<-|[]]. split; auto. now apply Nat.eqb_eq.
Qed.

Lemma matches_at_true (r : regex) (c : cursor) :
  matches_at r c = true -> exists c', In c' (run r c).
Proof.
  unfold matches_at. destruct (run r c) as [|c' l]; [discriminate|].
  intros _. exists c'. now left.
Qed.

(** A match of the level pattern starts at the first character and
    spans one of the five names up to the end of the text. *)
Lemma level_pattern_at (n : nat) (s : string) :
  matches_at LogCreate.level_pattern (n, s) = true ->
  n = 0 /\ In s level_names.
Proof.
  intros H. apply matches_at_true in H. destruct H as [c' H].
  unfold LogCreate.level_pattern in H.
  change (run (Cat ?a ?b) ?c) with (flat_map (run b) (run a c)) in H.
  apply in_flat_map in H. destruct H as [c1 [H1 H]].
  apply run_StartText_inv in H1. destruct H1 as [-> Hn]. simpl in Hn.
  split; [assumption|].
  apply in_flat_map in H. destruct H as [c2 [H2 H]].
  apply run_EndText_inv in H. destruct H as [_ Hend].
  change (run (Alt ?a ?b) ?c) with (run a c ++ run b c) in H2.
  repeat (apply in_app_or in H2; destruct H2 as [H2|H2]);
    apply run_Lit_inv in H2; rewrite Hend, string_app_empty_r in H2;
    simpl in H2; subst s; simpl; tauto.
Qed.

Lemma cursors_position (k n : nat) (s s' : string) :
  In (n, s') (cursors k s) -> k <= n /\ (n = k -> s' = s).
Proof.
  revert k. induction s as [|a s IH]; intros k; simpl.
  - intros [[= <- <-]|[]]. auto.
  - intros [[= <- <-]|H]; [auto|].
    apply IH in H. lia.
Qed.

(** The pattern accepts exactly the five level names. *)
Lemma level_pattern_spec (s : string) :
  is_match LogCreate.level_pattern s = true <-> In s level_names.
Proof.
  split.
  - unfold is_match. intros H. apply existsb_exists in H.
    destruct H as [[n s'] [Hin Hm]].
    apply level_pattern_at in Hm. destruct Hm as [-> Hs'].
    apply cursors_position in Hin. destruct Hin as [_ Heq].
    now rewrite <- (Heq eq_refl).
  - simpl. intros [<-|[<-|[<-|[<-|[<-|[]]]]]]; reflexivity.
Qed.

(** ** Field validators *)

Lemma validate_str_inr_inv (c : StrField) (v : json) (s : string) :
  validate_str c v = inr s ->
  v = JStr s /\ below_min c s = false /\ above_max c s = false
  /\ pattern_fails c s = false.
Proof.
  destruct v; simpl; try discriminate.
  destruct (below_min c s0) eqn:E1; [discriminate|].
  destruct (above_max c s0) eqn:E2; [discriminate|].
  destruct (pattern_fails c s0) eqn:E3; [discriminate|].
  intros [= <-]. auto.
Qed.

Lemma validate_str_inr (c : StrField) (s : string) :
  below_min c s = false -> above_max c s = false ->
  pattern_fails c s = false ->
  validate_str c (JStr s) = inr s.
Proof. intros H1 H2 H3. simpl. now rewrite H1, H2, H3. Qed.

(** [source]: a string of 1 to 255 characters. *)
Lemma source_accepts_iff (v : json) :
  is_ok (validate_str LogCreate.source_field v) = true
  <-> exists s, v = JStr s /\ (1 <= N.of_nat (String.length s) <= 255)%N.
Proof.
  split.
  - destruct (validate_str LogCreate.source_field v) as [t|s] eqn:E;
      [discriminate|]. intros _.
    apply validate_str_inr_inv in E. destruct E as (-> & H1 & H2 & _).
    exists s. split; [reflexivity|].
    unfold below_min, above_max in *. simpl in *.
    apply N.ltb_ge in H1. apply N.ltb_ge in H2. lia.
  - intros (s & -> & H).
    rewrite validate_str_inr; [reflexivity| | |reflexivity];
      unfold below_min, above_max; simpl; apply N.ltb_ge; lia.
Qed.

(** [message]: a string of 1 to 10000 characters. *)
Lemma message_accepts_iff (v : json) :
  is_ok (validate_str LogCreate.message_field v) = true
  <-> exists s, v = JStr s /\ (1 <= N.of_nat (String.length s) <= 10000)%N.
Proof.
  split.
  - destruct (validate_str LogCreate.message_field v) as [t|s] eqn:E;
      [discriminate|]. intros _.
    apply validate_str_inr_inv in E. destruct E as (-> & H1 & H2 & _).
    exists s. split; [reflexivity|].
    unfold below_min, above_max in *. simpl in *.
    apply N.ltb_ge in H1. apply N.ltb_ge in H2. lia.
  - intros (s & -> & H).
    rewrite validate_str_inr; [reflexivity| | |reflexivity];
      unfold below_min, above_max; simpl; apply N.ltb_ge; lia.
Qed.

(** [level]: one of the five names, and nothing else. *)
Lemma level_accepts_iff (v : json) :
  is_ok (validate_str LogCreate.level_field v) = true
  <-> In v (map JStr level_names).
Proof.
  split.
  - destruct (validate_str LogCreate.level_field v) as [t|s] eqn:E;
      [discriminate|]. intros _.
    apply validate_str_inr_inv in E. destruct E as (-> & _ & _ & H3).
    unfold pattern_fails in H3. simpl in H3.
    apply negb_false_iff in H3. apply level_pattern_spec in H3.
    now apply in_map.
  - intros H. apply in_map_iff in H. destruct H as (s & <- & Hs).
    rewrite validate_str_inr; try reflexivity.
    unfold pattern_fails. simpl. apply negb_false_iff.
    now apply level_pattern_spec.
Qed.

(** [metadata]: an object or [null]. *)
Lemma metadata_accepts_iff (v : json) :
  is_ok (validate_optional_dict v) = true
  <-> is_object v = true \/ is_null v = true.
Proof. destruct v; simpl; intuition discriminate. Qed.

(** ** The model validator *)

Section ValidationFacts.

Variable vd : json -> ErrorType + datetime.

Lemma model_validate_ok (d : dict) ts src lvl msg md :
  check_timestamp vd d = inr ts -> check_source d = inr src ->
  check_level d = inr lvl -> check_message d = inr msg ->
  check_metadata d = inr md ->
  model_validate vd (JObj d) = inr (LogCreate.mk ts src lvl msg md).
Proof.
  intros H1 H2 H3 H4 H5. unfold model_validate.
  now rewrite H1, H2, H3, H4, H5.
Qed.

Lemma model_validate_inr_inv (payload : json) (e : LogCreate.t) :
  model_validate vd payload = inr e ->
  exists d, payload = JObj d
    /\ check_timestamp vd d = inr (LogCreate.timestamp e)
    /\ check_source d = inr (LogCreate.source e)
    /\ check_level d = inr (LogCreate.level e)
    /\ check_message d = inr (LogCreate.message e)
    /\ check_metadata d = inr (LogCreate.metadata e).
Proof.
  destruct payload; try discriminate.
  unfold model_validate.
  destruct (check_timestamp vd d) as [?|ts] eqn:E1; [discriminate|].
  destruct (check_source d) as [?|src] eqn:E2;
    [destruct (check_level d), (check_message d), (check_metadata d);
     discriminate|].
  destruct (check_level d) as [?|lvl] eqn:E3;
    [destruct (check_message d), (check_metadata d); discriminate|].
  destruct (check_message d) as [?|msg] eqn:E4;
    [destruct (check_metadata d); discriminate|].
  destruct (check_metadata d) as [?|md] eqn:E5; [discriminate|].
  intros [= <-]. exists d. simpl. repeat split; assumption.
Qed.

(** One failing field is enough for the whole body to be rejected, with
    at least one error reported. *)
Lemma model_validate_rejects (d : dict) :
  is_ok (check_timestamp vd d) && is_ok (check_source d)
    && is_ok (check_level d) && is_ok (check_message d)
    && is_ok (check_metadata d) = false ->
  exists errors, errors <> [] /\ model_validate vd (JObj d) = inl errors.
Proof.
  unfold model_validate.
  destruct (check_timestamp vd d), (check_source d), (check_level d),
    (check_message d), (check_metadata d); simpl; intros H;
    try discriminate H; eexists; (split; [|reflexivity]); discriminate.
Qed.

Lemma model_validate_accepts_iff (d : dict) :
  is_ok (model_validate vd (JObj d)) = true
  <-> is_ok (check_timestamp vd d) && is_ok (check_source d)
        && is_ok (check_level d) && is_ok (check_message d)
        && is_ok (check_metadata d) = true.
Proof.
  unfold model_validate.
  destruct (check_timestamp vd d), (check_source d), (check_level d),
    (check_message d), (check_metadata d); simpl; intuition discriminate.
Qed.

Lemma model_validate_not_object (payload : json) :
  is_object payload = false ->
  exists errors, errors <> [] /\ model_validate vd payload = inl errors.
Proof.
  destruct payload; simpl; try discriminate; intros _;
    eexists; (split; [|reflexivity]); discriminate.
Qed.

Lemma required_field_missing {A} name (d : dict)
    (check : json -> ErrorType + A) :
  dict_get name d = None -> is_ok (required_field name d check) = false.
Proof. unfold required_field. now intros ->. Qed.

Lemma required_field_present {A} name (d : dict)
    (check : json -> ErrorType + A) (v : json) :
  dict_get name d = Some v -> required_field name d check = check v.
Proof. unfold required_field. now intros ->. Qed.

Lemma not_true_false (b : bool) : ~ b = true -> b = false.
Proof. destruct b; congruence. Qed.

(** Every constraint failure is caught by the validator. *)
Lemma constraint_failure_rejected (payload : json) :
  ConstraintFailure vd payload ->
  exists errors, errors <> [] /\ model_validate vd payload = inl errors.
Proof.
  intros F. destruct F as [payload H|d name Hin H|d v H Hv|d v H Hv
                          |d v H Hv|d v H Hv|d v H Hv Hn].
  - now apply model_validate_not_object.
  - apply model_validate_rejects.
    simpl in Hin.
    destruct Hin as [<-|[<-|[<-|[<-|[]]]]].
    + unfold check_timestamp. rewrite (required_field_missing _ _ _ H).
      reflexivity.
    + unfold check_source. rewrite (required_field_missing _ _ _ H).
      apply andb_false_intro1, andb_false_intro1, andb_false_intro1.
      apply andb_false_r.
    + unfold check_level. rewrite (required_field_missing _ _ _ H).
      apply andb_false_intro1, andb_false_intro1. apply andb_false_r.
    + unfold check_message. rewrite (required_field_missing _ _ _ H).
      apply andb_false_intro1. apply andb_false_r.
  - apply model_validate_rejects.
    unfold check_timestamp. rewrite (required_field_present _ _ _ H), Hv.
    reflexivity.
  - apply model_validate_rejects.
    unfold check_source. rewrite (required_field_present _ _ _ H).
    replace (is_ok (validate_str LogCreate.source_field v)) with false.
    + apply andb_false_intro1, andb_false_intro1, andb_false_intro1.
      apply andb_false_r.
    + symmetry. apply not_true_false. intros Hok.
      apply source_accepts_iff in Hok. destruct Hok as (s & -> & Hs).
      now apply (Hv s).
  - apply model_validate_rejects.
    unfold check_level. rewrite (required_field_present _ _ _ H).
    replace (is_ok (validate_str LogCreate.level_field v)) with false.
    + apply andb_false_intro1, andb_false_intro1. apply andb_false_r.
    + symmetry. apply not_true_false. intros Hok.
      now apply level_accepts_iff in Hok.
  - apply model_validate_rejects.
    unfold check_message. rewrite (required_field_present _ _ _ H).
    replace (is_ok (validate_str LogCreate.message_field v)) with false.
    + apply andb_false_intro1. apply andb_false_r.
    + symmetry. apply not_true_false. intros Hok.
      apply message_accepts_iff in Hok. destruct Hok as (s & -> & Hs).
      now apply (Hv s).
  - apply model_validate_rejects.
    unfold check_metadata, defaulted_field. rewrite H.
    replace (is_ok (validate_optional_dict v)) with false.
    + apply andb_false_r.
    + symmetry. apply not_true_false. intros Hok.
      apply metadata_accepts_iff in Hok. destruct Hok; congruence.
Qed.


End ValidationFacts.


(** ** [isoformat] writes text that reads back *)

Lemma string_app_assoc (a b c : string) : (a ++ b) ++ c = a ++ (b ++ c).
Proof. induction a; simpl; congruence. Qed.

Lemma digit_cons_cases (k : N) (d : Decimal.uint) :
  (k < 10)%N ->
  Unsigned.of_lu (digit_cons k d) = (k + 10 * Unsigned.of_lu d)%N
  /\ nb_digits (digit_cons k d) = S (nb_digits d).
Proof.
  intros H.
  assert (E : In k [0; 1; 2; 3; 4; 5; 6; 7; 8; 9]%N) by (simpl; lia).
  simpl in E.
  repeat (destruct E as [<-|E]; [split; reflexivity|]). destruct E.
Qed.

Lemma little_digits_value (w : nat) (n : N) :
  (n < 10 ^ N.of_nat w)%N -> Unsigned.of_lu (little_digits w n) = n.
Proof.
  revert n. induction w as [|w IH]; intros n H.
  - simpl in *. lia.
  - cbn [little_digits].
    assert (Hk : (n mod 10 < 10)%N) by (apply N.mod_lt; lia).
    destruct (digit_cons_cases (little_digits w (n / 10)) Hk) as [-> _].
    rewrite IH.
    + pose proof (N.Div0.div_mod n 10). lia.
    + rewrite Nat2N.inj_succ, N.pow_succ_r' in H.
      apply N.Div0.div_lt_upper_bound. lia.
Qed.

Lemma little_digits_count (w : nat) (n : N) :
  nb_digits (little_digits w n) = w.
Proof.
  revert n. induction w as [|w IH]; intros n; [reflexivity|].
  cbn [little_digits].
  assert (Hk : (n mod 10 < 10)%N) by (apply N.mod_lt; lia).
  destruct (digit_cons_cases (little_digits w (n / 10)) Hk) as [_ ->].
  now rewrite IH.
Qed.

Lemma value_after_revapp (d d' : Decimal.uint) :
  value_after (Unsigned.of_lu d') d = Unsigned.of_lu (revapp d d').
Proof.
  revert d'. induction d; intros d'; cbn [value_after revapp];
    [reflexivity|rewrite <- IHd; f_equal; cbn [Unsigned.of_lu]; lia..].
Qed.

Lemma uint_text_length (d : Decimal.uint) :
  String.length (NilEmpty.string_of_uint d) = nb_digits d.
Proof. induction d; simpl; congruence. Qed.

Lemma zeros_then_digits (k : nat) (d : Decimal.uint) :
  string_of_list_ascii (repeat "0"%char k) ++ NilEmpty.string_of_uint d
  = NilEmpty.string_of_uint (Nat.iter k D0 d).
Proof. induction k as [|k IH]; simpl; [reflexivity|now rewrite IH]. Qed.

Lemma unorm_not_nil (d : Decimal.uint) : unorm d <> Decimal.Nil.
Proof.
  unfold unorm. destruct (nzhead d); discriminate.
Qed.

Lemma fixed_digits_value (w : nat) (n : N) :
  (n < 10 ^ N.of_nat w)%N -> N.of_uint (fixed_digits w n) = n.
Proof.
  intros H. unfold fixed_digits, N.of_uint.
  rewrite Unsigned.of_lu_rev. now apply little_digits_value.
Qed.

Lemma fixed_digits_count (w : nat) (n : N) :
  nb_digits (fixed_digits w n) = w.
Proof.
  unfold fixed_digits. now rewrite nb_digits_rev, little_digits_count.
Qed.

(** [zfill] writes a number below [10 ^ w] with exactly its [w]
    digits. *)
Lemma zfill_fixed_digits (w : nat) (n : N) :
  0 < w -> (n < 10 ^ N.of_nat w)%N ->
  zfill w n = NilEmpty.string_of_uint (fixed_digits w n).
Proof.
  intros Hw H. unfold zfill.
  set (d := fixed_digits w n).
  assert (Hn : d <> Decimal.Nil).
  { intros E. pose proof (fixed_digits_count w n) as C. fold d in C.
    rewrite E in C. simpl in C. lia. }
  rewrite <- (fixed_digits_value w H). fold d.
  rewrite DecimalN.Unsigned.to_of.
  assert (E : NilZero.string_of_uint (unorm d)
              = NilEmpty.string_of_uint (unorm d)).
  { pose proof (unorm_not_nil d). unfold NilZero.string_of_uint.
    destruct (unorm d); congruence. }
  rewrite E, uint_text_length, zeros_then_digits.
  replace (w - nb_digits (unorm d)) with (nb_digits d - nb_digits (unorm d))
    by (unfold d; now rewrite fixed_digits_count).
  now rewrite iter_D0_unorm.
Qed.

Lemma read_digits_uint (d : Decimal.uint) (acc : N) (rest : string) :
  read_digits (nb_digits d) acc (NilEmpty.string_of_uint d ++ rest)
  = Some (value_after acc d, rest).
Proof.
  revert acc. induction d; intros acc; [reflexivity|..];
    cbn [nb_digits NilEmpty.string_of_uint append read_digits value_after];
    match goal with
    | |- context [digit_of ?c] =>
        let v := eval vm_compute in (digit_of c) in
        change (digit_of c) with v
    end; apply IHd.
Qed.

Lemma read_fraction_uint (d : Decimal.uint) (acc : N) (seen : bool)
    (rest : string) :
  seen = true \/ d <> Decimal.Nil ->
  read_fraction (nb_digits d) acc seen (NilEmpty.string_of_uint d ++ rest)
  = Some (value_after acc d, rest).
Proof.
  revert acc seen. induction d; intros acc seen H;
    [destruct H as [->|H]; [reflexivity|congruence]|..];
    cbn [nb_digits NilEmpty.string_of_uint append read_fraction value_after];
    match goal with
    | |- context [digit_of ?c] =>
        let v := eval vm_compute in (digit_of c) in
        change (digit_of c) with v
    end; apply IHd; now left.
Qed.

Lemma value_after_fixed_digits (w : nat) (n : N) :
  (n < 10 ^ N.of_nat w)%N -> value_after 0 (fixed_digits w n) = n.
Proof.
  intros H. change 0%N with (Unsigned.of_lu Decimal.Nil).
  rewrite value_after_revapp. fold (Decimal.rev (fixed_digits w n)).
  unfold fixed_digits. rewrite rev_rev. now apply little_digits_value.
Qed.

(** What [zfill] writes, [read_digits] reads back. *)
Lemma read_digits_zfill (w : nat) (n : N) (rest : string) :
  0 < w -> (n < 10 ^ N.of_nat w)%N ->
  read_digits w 0 (zfill w n ++ rest) = Some (n, rest).
Proof.
  intros Hw H. rewrite zfill_fixed_digits by assumption.
  rewrite <- (fixed_digits_count w n) at 1.
  now rewrite read_digits_uint, value_after_fixed_digits.
Qed.

Lemma read_fraction_zfill (w : nat) (n : N) (rest : string) :
  0 < w -> (n < 10 ^ N.of_nat w)%N ->
  read_fraction w 0 false (zfill w n ++ rest) = Some (n, rest).
Proof.
  intros Hw H. rewrite zfill_fixed_digits by assumption.
  rewrite <- (fixed_digits_count w n) at 1.
  rewrite read_fraction_uint, value_after_fixed_digits; auto.
  right. intros E. pose proof (fixed_digits_count w n) as C.
  rewrite E in C. simpl in C. lia.
Qed.

Lemma read_zfill_2 (n : N) (rest : string) :
  (n < 100)%N -> read_digits 2 0 (zfill 2 n ++ rest) = Some (n, rest).
Proof. intros H. apply read_digits_zfill; [lia|exact H]. Qed.

Lemma read_zfill_4 (n : N) (rest : string) :
  (n < 10000)%N -> read_digits 4 0 (zfill 4 n ++ rest) = Some (n, rest).
Proof. intros H. apply read_digits_zfill; [lia|exact H]. Qed.

Lemma read_zfill_6 (n : N) (rest : string) :
  (n < 1000000)%N ->
  read_fraction 6 0 false (zfill 6 n ++ rest) = Some (n, rest).
Proof. intros H. apply read_fraction_zfill; [lia|exact H]. Qed.

(** The zone suffix reads back. *)
Lemma read_zone_format (tz : option Z) :
  tz_well_formed tz = true ->
  read_zone match tz with Some off => format_offset off | None => "" end
    = Some tz.
Proof.
  destruct tz as [off|]; [|reflexivity].
  unfold tz_well_formed. intros H. apply andb_true_iff in H.
  destruct H as [Hm Ha]. apply Z.eqb_eq in Hm. apply Z.ltb_lt in Ha.
  unfold format_offset.
  set (a := Z.to_N (Z.abs off)).
  assert (Ha' : (a < 86400)%N) by (unfold a; lia).
  assert (Hm' : (a mod 60 = 0)%N).
  { unfold a. destruct (Z.abs_spec off) as [[? ->]|[? ->]].
    - rewrite <- (Z2N.id (off mod 60)) in Hm by (apply Z.mod_pos_bound; lia).
      rewrite Z2N.inj_mod in Hm by lia. simpl in Hm. lia.
    - assert ((- off) mod 60 = 0)%Z.
      { apply Z.mod_divide in Hm; [|lia]. apply Z.mod_divide; [lia|].
        now apply Z.divide_opp_r. }
      rewrite <- (Z2N.id ((-off) mod 60)) in H0 by (apply Z.mod_pos_bound; lia).
      rewrite Z2N.inj_mod in H0 by lia. simpl in H0. lia. }
  rewrite Hm'. cbn [N.eqb].
  assert (Hh : (a / 3600 <= 23)%N).
  { apply N.lt_succ_r. apply N.Div0.div_lt_upper_bound. simpl. lia. }
  assert (Hmi : (a mod 3600 / 60 <= 59)%N).
  { apply N.lt_succ_r. apply N.Div0.div_lt_upper_bound.
    assert (a mod 3600 < 3600)%N by (apply N.mod_lt; lia). simpl. lia. }
  assert (Hsum : (a / 3600 * 3600 + a mod 3600 / 60 * 60 = a)%N).
  { pose proof (N.Div0.div_mod a 3600) as E1.
    pose proof (N.Div0.div_mod (a mod 3600) 60) as E2.
    assert (E3 : ((a mod 3600) mod 60 = a mod 60)%N).
    { rewrite E1 at 2.
      replace (3600 * (a / 3600) + a mod 3600)%N
        with (a mod 3600 + (60 * (a / 3600)) * 60)%N by lia.
      now rewrite N.Div0.mod_add. }
    lia. }
  destruct (off <? 0)%Z eqn:Es; simpl append; unfold read_zone;
    cbn [Ascii.eqb Bool.eqb orb andb bind_opt];
    rewrite read_zfill_2 by lia; cbn [bind_opt expect append Ascii.eqb Bool.eqb andb];
    rewrite read_zfill_2 by lia; cbn [bind_opt];
    rewrite (proj2 (N.leb_le _ _) Hh), (proj2 (N.leb_le _ _) Hmi);
    cbn [andb]; rewrite Hsum; do 2 f_equal; unfold a.
  - apply Z.ltb_lt in Es. lia.
  - apply Z.ltb_ge in Es. lia.
Qed.

Lemma zone_text_no_dot (tz : option Z) : expect "." (zone_text tz) = None.
Proof.
  destruct tz as [off|]; [|reflexivity].
  unfold zone_text, format_offset. destruct (off <? 0)%Z; reflexivity.
Qed.

Lemma isoformat_reads_back (d : datetime) :
  well_formed d = true -> parse_rfc3339 (isoformat d) = Some d.
Proof.
  destruct d as [y m dd h mi s us tz]. unfold well_formed.
  cbn [year month day hour minute second microsecond tzinfo].
  intros H.
  apply andb_true_iff in H. destruct H as [H Htz].
  apply andb_true_iff in H. destruct H as [H Hus].
  apply andb_true_iff in H. destruct H as [H Ht].
  apply andb_true_iff in H. destruct H as [Hd Hy].
  apply N.ltb_lt in Hus. apply N.leb_le in Hy.
  assert (Hd' := Hd). assert (Ht' := Ht).
  unfold valid_date in Hd'. unfold valid_time in Ht'.
  repeat (apply andb_true_iff in Hd'; destruct Hd' as [Hd' ?]).
  repeat (apply andb_true_iff in Ht'; destruct Ht' as [Ht' ?]).
  repeat match goal with
         | E : (_ <=? _)%N = true |- _ => apply N.leb_le in E
         end.
  assert (dd <= 31)%N.
  { assert (days_in_month y m <= 31)%N; [|lia].
    unfold days_in_month. destruct (is_leap y);
      repeat match goal with
             | |- context [match ?x with _ => _ end] => destruct x
             end; lia. }
  unfold isoformat, format_clock.
  cbn [year month day hour minute second microsecond tzinfo].
  fold (zone_text tz).
  rewrite !string_app_assoc. cbn [append].
  unfold parse_rfc3339.
  rewrite read_zfill_4 by lia.
  cbn [bind_opt expect read_separator Ascii.eqb Bool.eqb andb orb].
  rewrite read_zfill_2 by lia.
  cbn [bind_opt expect read_separator Ascii.eqb Bool.eqb andb orb].
  rewrite read_zfill_2 by lia.
  cbn [bind_opt expect read_separator Ascii.eqb Bool.eqb andb orb].
  rewrite read_zfill_2 by lia.
  cbn [bind_opt expect read_separator Ascii.eqb Bool.eqb andb orb].
  rewrite read_zfill_2 by lia.
  cbn [bind_opt expect read_separator Ascii.eqb Bool.eqb andb orb].
  rewrite read_zfill_2 by lia.
  cbn [bind_opt].
  destruct (us =? 0)%N eqn:E0.
  - apply N.eqb_eq in E0. subst us. cbn [append].
    rewrite zone_text_no_dot. cbn [bind_opt].
    unfold zone_text. rewrite read_zone_format by assumption.
    cbn [bind_opt]. now rewrite Hd, Ht.
  - apply N.eqb_neq in E0. cbn [append].
    cbn [expect Ascii.eqb Bool.eqb andb].
    rewrite read_zfill_6 by lia. cbn [bind_opt].
    unfold zone_text. rewrite read_zone_format by assumption.
    cbn [bind_opt]. now rewrite Hd, Ht.
Qed.

(** ** The handlers, step by step *)

Section HandlerFacts.

Variable settings : Config.Settings.

Lemma log_data_of_eq (e : LogCreate.t) :
  log_data_of e =
    [("timestamp", JStr (isoformat (LogCreate.timestamp e)));
     ("source", JStr (LogCreate.source e));
     ("level", JStr (LogCreate.level e));
     ("message", JStr (LogCreate.message e));
     ("metadata", match LogCreate.metadata e with
                  | Some d => to_jsonable (JObj d)
                  | None => JNull
                  end)].
Proof. reflexivity. Qed.

(** Where every float is finite the dump keeps the value as it is. *)
Lemma to_jsonable_finite (v : json) :
  finite_floats v = true -> to_jsonable v = v.
Proof.
  induction v using json_nested_ind; try reflexivity.
  - simpl. intros H. apply negb_true_iff in H. now rewrite H.
  - cbn [finite_floats to_jsonable]. intros Hf. f_equal.
    induction H as [|x xs Hx _ IH]; [reflexivity|].
    cbn [forallb map] in *. apply andb_true_iff in Hf.
    destruct Hf as [Hf1 Hf2]. now rewrite Hx, IH.
  - cbn [finite_floats to_jsonable]. intros Hf. f_equal.
    induction H as [|[k x] d Hx _ IH]; [reflexivity|].
    cbn [forallb map snd] in *. apply andb_true_iff in Hf.
    destruct Hf as [Hf1 Hf2]. now rewrite Hx, IH.
Qed.

Lemma ingest_log_no_producer (e : LogCreate.t) (w : World) :
  kafka_producer w = None ->
  ingest_log settings e w =
    (inl (HTTPException 503
            "Log ingestion service is temporarily unavailable. Kafka is not connected."),
     with_log w LvError "Kafka producer is not available").
Proof.
  intros H. unfold ingest_log, bind, get_kafka_producer. rewrite H.
  reflexivity.
Qed.

Lemma ingest_log_with_producer (e : LogCreate.t) (w : World)
    (p : AIOKafkaProducer) :
  kafka_producer w = Some p ->
  let topic := Config.logs_topic settings in
  let value := JObj (log_data_of e) in
  ingest_log settings e w =
    match broker p topic value with
    | Acknowledged =>
        (inr LogResponse.default, with_call w topic value)
    | RaisesKafkaError text =>
        (inl (HTTPException 503
                ("Failed to queue log for processing: " ++ text)),
         with_log (with_call w topic value) LvError
           ("Kafka error during log ingestion: " ++ text))
    | RaisesException text =>
        (inl (HTTPException 500
                "An unexpected error occurred while processing the log"),
         with_log (with_call w topic value) LvError
           ("Unexpected error during log ingestion: " ++ text))
    end.
Proof.
  intros H topic value.
  unfold ingest_log, bind, get_kafka_producer. rewrite H.
  unfold try_except, send_and_wait. fold topic. fold value.
  destruct (broker p topic value); reflexivity.
Qed.

(** With a producer in place the handler calls the client exactly once,
    whatever the broker answers. *)
Lemma ingest_log_one_call (e : LogCreate.t) (w : World)
    (p : AIOKafkaProducer) :
  kafka_producer w = Some p ->
  broker_calls (snd (ingest_log settings e w)) =
    (broker_calls w
       ++ [(Config.logs_topic settings, JObj (log_data_of e))])%list.
Proof.
  intros H. rewrite (ingest_log_with_producer e w H).
  destruct (broker p _ _); reflexivity.
Qed.

Lemma respond_calls {A} (declared : Z) (to_body : A -> json)
    (out : (exn + A) * World) :
  broker_calls (snd (respond declared to_body out)) = broker_calls (snd out).
Proof. destruct out as [[[c d|t|t]|a] w]; reflexivity. Qed.

Lemma health_check_eq (w : World) :
  get_health settings w =
    ({| status_code := 200;
        body := JObj [("status", JStr "healthy");
                      ("service", JStr (Config.app_name settings));
                      ("version", JStr (Config.app_version settings));
                      ("kafka", JStr match kafka_producer w with
                                     | Some _ => "connected"
                                     | None => "disconnected"
                                     end)] |}, w).
Proof. reflexivity. Qed.

End HandlerFacts.

(* ================================================================== *)
(** * The claims *)




(** C2.  A valid request that arrives while the producer is absent is
    answered with status 503 and the fixed detail text; the handler
    writes one error line to the log and makes no call to the broker
    client. *)
Theorem valid_request_without_producer_is_503
    (vd : json -> ErrorType + datetime) (settings : Config.Settings)
    (payload : json) (log_entry : LogCreate.t) (w : World) :
  model_validate vd payload = inr log_entry ->
  kafka_producer w = None ->
  post_ingest vd settings payload w =
    ({| status_code := 503;
        body := JObj [("detail",
                       JStr "Log ingestion service is temporarily unavailable. Kafka is not connected.")] |},
     with_log w LvError "Kafka producer is not available")
  /\ broker_calls (snd (post_ingest vd settings payload w)) = broker_calls w.
Proof.
  intros Hv Hp.
  assert (E : post_ingest vd settings payload w =
    ({| status_code := 503;
        body := JObj [("detail",
                       JStr "Log ingestion service is temporarily unavailable. Kafka is not connected.")] |},
     with_log w LvError "Kafka producer is not available")).
  { unfold post_ingest. rewrite Hv.
    now rewrite (ingest_log_no_producer settings log_entry w Hp). }
  split; [exact E|]. now rewrite E.
Qed.

Lemma valid_request_without_producer_is_503_witness :
  post_ingest rfc3339_datetime Config.defaults example_payload disconnected =
    ({| status_code := 503;
        body := JObj [("detail",
                       JStr "Log ingestion service is temporarily unavailable. Kafka is not connected.")] |},
     with_log disconnected LvError "Kafka producer is not available")
  /\ broker_calls
       (snd (post_ingest rfc3339_datetime Config.defaults example_payload
               disconnected)) = broker_calls disconnected.
Proof.
  apply (@valid_request_without_producer_is_503 rfc3339_datetime
           Config.defaults example_payload example_entry disconnected);
    reflexivity.
Defined.

(** C3.  For a valid request handled while a producer is in place: if
    the broker acknowledges the send, the answer is status 202 with the
    body [{"status": "accepted", "message": "Log queued for
    processing"}] and the client has been called once; and the answer is
    202 only if that one send was made and acknowledged. *)
Theorem acknowledged_send_is_202
    (vd : json -> ErrorType + datetime) (settings : Config.Settings)
    (payload : json) (log_entry : LogCreate.t) (w : World)
    (producer : AIOKafkaProducer) :
  model_validate vd payload = inr log_entry ->
  kafka_producer w = Some producer ->
  let topic := Config.logs_topic settings in
  let value := JObj (log_data_of log_entry) in
  (broker producer topic value = Acknowledged ->
   post_ingest vd settings payload w =
     ({| status_code := 202;
         body := JObj [("status", JStr "accepted");
                       ("message", JStr "Log queued for processing")] |},
      with_call w topic value))
  /\ (status_code (fst (post_ingest vd settings payload w)) = 202%Z ->
      broker producer topic value = Acknowledged
      /\ broker_calls (snd (post_ingest vd settings payload w)) =
           (broker_calls w ++ [(topic, value)])%list).
Proof.
  intros Hv Hp topic value.
  unfold post_ingest. rewrite Hv.
  rewrite (ingest_log_with_producer settings log_entry w Hp).
  fold topic. fold value.
  destruct (broker producer topic value) as [|text|text]; simpl.
  - split; [reflexivity|]. intros _. split; reflexivity.
  - split; [discriminate|]. unfold HTTP_202_ACCEPTED. discriminate.
  - split; [discriminate|]. discriminate.
Qed.

Lemma acknowledged_send_is_202_witness :
  post_ingest rfc3339_datetime Config.defaults example_payload
    (connected_to acknowledging) =
    ({| status_code := 202;
        body := JObj [("status", JStr "accepted");
                      ("message", JStr "Log queued for processing")] |},
     with_call (connected_to acknowledging) "logs-raw"
       (JObj (log_data_of example_entry))).
Proof.
  destruct (@acknowledged_send_is_202 rfc3339_datetime Config.defaults
              example_payload example_entry (connected_to acknowledging)
              (mk_producer "kafka:9092" "gzip" "all" acknowledging)
              eq_refl eq_refl) as [H _].
  apply H. reflexivity.
Defined.

(** C4.  For a valid request handled while a producer is in place: if
    the broker client fails the send with a Kafka error, the answer is
    status 503 whose detail is ["Failed to queue log for processing: "]
    followed by the text of the error, and the client has been called
    exactly once. *)
Theorem failed_send_is_503_after_one_attempt
    (vd : json -> ErrorType + datetime) (settings : Config.Settings)
    (payload : json) (log_entry : LogCreate.t) (w : World)
    (producer : AIOKafkaProducer) (text : string) :
  model_validate vd payload = inr log_entry ->
  kafka_producer w = Some producer ->
  let topic := Config.logs_topic settings in
  let value := JObj (log_data_of log_entry) in
  broker producer topic value = RaisesKafkaError text ->
  post_ingest vd settings payload w =
    ({| status_code := 503;
        body := JObj [("detail",
                       JStr ("Failed to queue log for processing: " ++ text))] |},
     with_log (with_call w topic value) LvError
       ("Kafka error during log ingestion: " ++ text))
  /\ broker_calls (snd (post_ingest vd settings payload w)) =
       (broker_calls w ++ [(topic, value)])%list.
Proof.
  intros Hv Hp topic value Hb.
  unfold post_ingest. rewrite Hv.
  rewrite (ingest_log_with_producer settings log_entry w Hp).
  fold topic. fold value. rewrite Hb. split; reflexivity.
Qed.

Lemma failed_send_is_503_after_one_attempt_witness :
  let w := connected_to (failing "KafkaTimeoutError: request timed out") in
  post_ingest rfc3339_datetime Config.defaults example_payload w =
    ({| status_code := 503;
        body := JObj [("detail",
                       JStr "Failed to queue log for processing: KafkaTimeoutError: request timed out")] |},
     with_log (with_call w "logs-raw" (JObj (log_data_of example_entry)))
       LvError
       "Kafka error during log ingestion: KafkaTimeoutError: request timed out")
  /\ broker_calls
       (snd (post_ingest rfc3339_datetime Config.defaults example_payload w)) =
       [("logs-raw", JObj (log_data_of example_entry))].
Proof.
  apply (@failed_send_is_503_after_one_attempt rfc3339_datetime
           Config.defaults example_payload example_entry
           (connected_to (failing "KafkaTimeoutError: request timed out"))
           (mk_producer "kafka:9092" "gzip" "all"
              (failing "KafkaTimeoutError: request timed out"))
           "KafkaTimeoutError: request timed out");
    reflexivity.
Defined.

(** C5, as the code has it.  For every valid request handled while a
    producer is in place, the client is called once, with the configured
    topic and an object of exactly the five model fields in declaration
    order, whose [timestamp] is the [isoformat()] text of the validated
    timestamp and whose [metadata] is the dumped metadata (the metadata
    itself when every float in it is finite).  The timestamp text is
    ISO 8601: for every value a [datetime] can hold it reads back, as
    RFC 3339 text, to the same value.  When the timestamp is 10:30:00
    UTC on 11 December 2025 (what ["2025-12-11T10:30:00Z"] denotes), the
    text sent is ["2025-12-11T10:30:00+00:00"]: the zero offset is
    written out, not abbreviated to [Z]. *)
Theorem sent_payload_has_isoformat_timestamp
    (vd : json -> ErrorType + datetime) (settings : Config.Settings)
    (payload : json) (log_entry : LogCreate.t) (w : World)
    (producer : AIOKafkaProducer) :
  model_validate vd payload = inr log_entry ->
  kafka_producer w = Some producer ->
  broker_calls (snd (post_ingest vd settings payload w)) =
    (broker_calls w ++
     [(Config.logs_topic settings,
       JObj [("timestamp", JStr (isoformat (LogCreate.timestamp log_entry)));
             ("source", JStr (LogCreate.source log_entry));
             ("level", JStr (LogCreate.level log_entry));
             ("message", JStr (LogCreate.message log_entry));
             ("metadata", match LogCreate.metadata log_entry with
                          | Some d => to_jsonable (JObj d)
                          | None => JNull
                          end)])])%list
  /\ (forall d, LogCreate.metadata log_entry = Some d ->
      finite_floats (JObj d) = true -> to_jsonable (JObj d) = JObj d)
  /\ (well_formed (LogCreate.timestamp log_entry) = true ->
      parse_rfc3339 (isoformat (LogCreate.timestamp log_entry))
        = Some (LogCreate.timestamp log_entry))
  /\ (LogCreate.timestamp log_entry =
        mk_datetime 2025 12 11 10 30 0 0 (Some 0%Z) ->
      isoformat (LogCreate.timestamp log_entry) = "2025-12-11T10:30:00+00:00").
Proof.
  intros Hv Hp. split; [|split; [|split]].
  - unfold post_ingest. rewrite Hv, respond_calls.
    rewrite (ingest_log_one_call settings log_entry w Hp).
    now rewrite log_data_of_eq.
  - intros d _. apply to_jsonable_finite.
  - apply isoformat_reads_back.
  - intros ->. reflexivity.
Qed.

Lemma sent_payload_has_isoformat_timestamp_witness :
  broker_calls
    (snd (post_ingest rfc3339_datetime Config.defaults example_payload
            (connected_to acknowledging))) =
    [("logs-raw",
      JObj [("timestamp", JStr "2025-12-11T10:30:00+00:00");
            ("source", JStr "web-api");
            ("level", JStr "ERROR");
            ("message", JStr "Database connection timeout");
            ("metadata", JObj [("user_id", JStr "12345");
                               ("endpoint", JStr "/api/users");
                               ("duration_ms", JInt 5000)])])]
  /\ parse_rfc3339 (isoformat (LogCreate.timestamp example_entry))
       = Some (LogCreate.timestamp example_entry)
  /\ isoformat (LogCreate.timestamp example_entry) = "2025-12-11T10:30:00+00:00".
Proof.
  destruct (@sent_payload_has_isoformat_timestamp rfc3339_datetime
              Config.defaults example_payload example_entry
              (connected_to acknowledging)
              (mk_producer "kafka:9092" "gzip" "all" acknowledging)
              eq_refl eq_refl) as (H1 & _ & H2 & H3).
  split; [exact H1|]. split; [apply H2|apply H3]; reflexivity.
Defined.

(** C5, as stated, fails on the request of the schema's own example: the
    producer is handed the timestamp ["2025-12-11T10:30:00+00:00"], not
    the literal ["2025-12-11T10:30:00Z"] of the request. *)
Lemma example_timestamp_is_not_sent_as_received :
  dict_get "timestamp"
    match example_payload with JObj d => d | _ => [] end
    = Some (JStr "2025-12-11T10:30:00Z")
  /\ exists value,
       broker_calls
         (snd (post_ingest rfc3339_datetime Config.defaults example_payload
                 (connected_to acknowledging))) = [("logs-raw", JObj value)]
       /\ dict_get "timestamp" value = Some (JStr "2025-12-11T10:30:00+00:00")
       /\ dict_get "timestamp" value <> Some (JStr "2025-12-11T10:30:00Z").
Proof.
  split; [reflexivity|].
  eexists. split; [reflexivity|]. split; [reflexivity|]. discriminate.
Qed.

(** C6.  With the other fields valid, a body is accepted exactly when
    its [level] is one of the strings DEBUG, INFO, WARNING, ERROR and
    CRITICAL; every other value of [level], of whatever type, is
    rejected. *)
Theorem level_accepted_iff_one_of_five
    (vd : json -> ErrorType + datetime) (d : dict) (v : json) :
  is_ok (check_timestamp vd d) = true ->
  is_ok (check_source d) = true ->
  is_ok (check_message d) = true ->
  is_ok (check_metadata d) = true ->
  dict_get "level" d = Some v ->
  (is_ok (model_validate vd (JObj d)) = true <-> In v (map JStr level_names)).
Proof.
  intros H1 H2 H4 H5 G.
  rewrite model_validate_accepts_iff, H1, H2, H4, H5. cbn [andb].
  rewrite !andb_true_r. unfold check_level.
  rewrite required_field_present with (v := v) by exact G.
  apply level_accepts_iff.
Qed.

Lemma level_accepted_iff_one_of_five_witness :
  (is_ok (model_validate rfc3339_datetime (payload_with_level (JStr "WARNING")))
     = true <-> In (JStr "WARNING") (map JStr level_names))
  /\ (is_ok (model_validate rfc3339_datetime (payload_with_level (JStr "warning")))
        = true <-> In (JStr "warning") (map JStr level_names))
  /\ (is_ok (model_validate rfc3339_datetime (payload_with_level (JInt 3)))
        = true <-> In (JInt 3) (map JStr level_names)).
Proof.
  repeat split;
    apply (@level_accepted_iff_one_of_five rfc3339_datetime); reflexivity.
Defined.

(** C7.  With the other fields valid, a [message] of length 0 or of
    length 10001 is rejected, and a [message] of length 1 or of length
    10000 is accepted. *)
Theorem message_length_boundaries
    (vd : json -> ErrorType + datetime) (d : dict) (m : string) :
  is_ok (check_timestamp vd d) = true ->
  is_ok (check_source d) = true ->
  is_ok (check_level d) = true ->
  is_ok (check_metadata d) = true ->
  dict_get "message" d = Some (JStr m) ->
  let n := N.of_nat (String.length m) in
  (n = 0%N -> is_ok (model_validate vd (JObj d)) = false)
  /\ (n = 10001%N -> is_ok (model_validate vd (JObj d)) = false)
  /\ (n = 1%N -> is_ok (model_validate vd (JObj d)) = true)
  /\ (n = 10000%N -> is_ok (model_validate vd (JObj d)) = true).
Proof.
  intros H1 H2 H3 H5 G n.
  assert (E : is_ok (model_validate vd (JObj d)) = true
              <-> (1 <= n <= 10000)%N).
  { rewrite model_validate_accepts_iff, H1, H2, H3, H5. cbn [andb].
    rewrite !andb_true_r. unfold check_message.
    rewrite required_field_present with (v := JStr m) by exact G.
    rewrite message_accepts_iff.
    split.
    - intros (s & [= <-] & Hs). exact Hs.
    - intros Hn. exists m. auto. }
  repeat split; intros Hn.
  - apply not_true_false. rewrite E. lia.
  - apply not_true_false. rewrite E. lia.
  - apply E. lia.
  - apply E. lia.
Qed.

Lemma message_length_boundaries_witness :
  is_ok (model_validate rfc3339_datetime
           (payload_with_message (text_of_length 0))) = false
  /\ is_ok (model_validate rfc3339_datetime
              (payload_with_message (text_of_length 10001))) = false
  /\ is_ok (model_validate rfc3339_datetime
              (payload_with_message (text_of_length 1))) = true
  /\ is_ok (model_validate rfc3339_datetime
              (payload_with_message (text_of_length 10000))) = true.
Proof.
  split; [|split; [|split]].
  - destruct (@message_length_boundaries rfc3339_datetime
                (fields_with_message (text_of_length 0)) (text_of_length 0)
                eq_refl eq_refl eq_refl eq_refl eq_refl) as (H & _).
    apply H. reflexivity.
  - destruct (@message_length_boundaries rfc3339_datetime
                (fields_with_message (text_of_length 10001))
                (text_of_length 10001)
                eq_refl eq_refl eq_refl eq_refl eq_refl) as (_ & H & _).
    apply H. vm_compute. reflexivity.
  - destruct (@message_length_boundaries rfc3339_datetime
                (fields_with_message (text_of_length 1)) (text_of_length 1)
                eq_refl eq_refl eq_refl eq_refl eq_refl) as (_ & _ & H & _).
    apply H. reflexivity.
  - destruct (@message_length_boundaries rfc3339_datetime
                (fields_with_message (text_of_length 10000))
                (text_of_length 10000)
                eq_refl eq_refl eq_refl eq_refl eq_refl) as (_ & _ & _ & H).
    apply H. vm_compute. reflexivity.
Defined.

(** C8, as the code has it.  In either state of the producer,
    [GET /health] answers with status 200 and leaves the world as it
    was; the body has the keys [status], [service], [version] and
    [kafka], in this order, where [service] and [version] come from the
    settings and [kafka] is ["connected"] when a producer is in place
    and ["disconnected"] when there is none. *)
Theorem health_is_200_with_kafka_field
    (settings : Config.Settings) (w : World) :
  status_code (fst (get_health settings w)) = 200%Z
  /\ snd (get_health settings w) = w
  /\ body (fst (get_health settings w)) = JObj (health_body settings w)
  /\ dict_keys (health_body settings w)
       = ["status"; "service"; "version"; "kafka"]
  /\ dict_get "service" (health_body settings w)
       = Some (JStr (Config.app_name settings))
  /\ dict_get "version" (health_body settings w)
       = Some (JStr (Config.app_version settings))
  /\ dict_get "kafka" (health_body settings w)
       = Some (JStr match kafka_producer w with
                    | Some _ => "connected"
                    | None => "disconnected"
                    end).
Proof.
  unfold health_body. rewrite health_check_eq. simpl.
  repeat split; reflexivity.
Qed.

(** C8, as stated, fails: the body of [GET /health] has no [broker]
    entry, in either state of the producer. *)
Lemma health_body_has_no_broker_entry :
  dict_get "broker" (health_body Config.defaults disconnected) = None
  /\ dict_get "broker"
       (health_body Config.defaults (connected_to acknowledging)) = None
  /\ ~ (exists v,
          dict_get "broker" (health_body Config.defaults disconnected)
            = Some (JStr v)).
Proof.
  split; [reflexivity|]. split; [reflexivity|].
  intros [v H]. discriminate H.
Qed.

(** C9, as the code has it.  With the other fields valid, a body
    without [metadata] is accepted and the record's [metadata] is the
    empty dict.  A body whose [metadata] is present and is neither an
    object nor [null] (an array, a string, a number, a boolean) is
    rejected.  A [metadata] of [null] is allowed by the field's
    [Optional] type: with the other fields valid the body is accepted
    and the record's [metadata] is [None]. *)
Theorem metadata_default_and_shape
    (vd : json -> ErrorType + datetime) (d : dict) :
  (dict_get "metadata" d = None ->
   is_ok (check_timestamp vd d) = true -> is_ok (check_source d) = true ->
   is_ok (check_level d) = true -> is_ok (check_message d) = true ->
   exists e, model_validate vd (JObj d) = inr e
             /\ LogCreate.metadata e = Some [])
  /\ (forall v, dict_get "metadata" d = Some v ->
      is_object v = false -> is_null v = false ->
      is_ok (model_validate vd (JObj d)) = false)
  /\ (dict_get "metadata" d = Some JNull ->
      is_ok (check_timestamp vd d) = true -> is_ok (check_source d) = true ->
      is_ok (check_level d) = true -> is_ok (check_message d) = true ->
      exists e, model_validate vd (JObj d) = inr e
                /\ LogCreate.metadata e = None).
Proof.
  split; [|split].
  - intros G H1 H2 H3 H4.
    destruct (check_timestamp vd d) as [|ts] eqn:E1; [discriminate|].
    destruct (check_source d) as [|src] eqn:E2; [discriminate|].
    destruct (check_level d) as [|lvl] eqn:E3; [discriminate|].
    destruct (check_message d) as [|msg] eqn:E4; [discriminate|].
    exists (LogCreate.mk ts src lvl msg (Some [])). split; [|reflexivity].
    apply model_validate_ok; try assumption.
    unfold check_metadata, defaulted_field. now rewrite G.
  - intros v G Ho Hn.
    destruct (constraint_failure_rejected (vd := vd) (payload := JObj d))
      as (errors & _ & E).
    + now apply bad_metadata with (v := v).
    + now rewrite E.
  - intros G H1 H2 H3 H4.
    destruct (check_timestamp vd d) as [|ts] eqn:E1; [discriminate|].
    destruct (check_source d) as [|src] eqn:E2; [discriminate|].
    destruct (check_level d) as [|lvl] eqn:E3; [discriminate|].
    destruct (check_message d) as [|msg] eqn:E4; [discriminate|].
    exists (LogCreate.mk ts src lvl msg None). split; [|reflexivity].
    apply model_validate_ok; try assumption.
    unfold check_metadata, defaulted_field. now rewrite G.
Qed.

Lemma metadata_default_and_shape_witness :
  (exists e, model_validate rfc3339_datetime (JObj fields_without_metadata)
               = inr e
             /\ LogCreate.metadata e = Some [])
  /\ is_ok (model_validate rfc3339_datetime
              (payload_with_metadata (JArr [JStr "user_id"]))) = false
  /\ is_ok (model_validate rfc3339_datetime
              (payload_with_metadata (JStr "user_id=12345"))) = false
  /\ (exists e, model_validate rfc3339_datetime (payload_with_metadata JNull)
                  = inr e
                /\ LogCreate.metadata e = None).
Proof.
  split; [|split; [|split]].
  - destruct (@metadata_default_and_shape rfc3339_datetime
                fields_without_metadata) as (H & _).
    apply H; reflexivity.
  - destruct (@metadata_default_and_shape rfc3339_datetime
                (fields_with_metadata (JArr [JStr "user_id"]))) as (_ & H & _).
    apply (H (JArr [JStr "user_id"])); reflexivity.
  - destruct (@metadata_default_and_shape rfc3339_datetime
                (fields_with_metadata (JStr "user_id=12345"))) as (_ & H & _).
    apply (H (JStr "user_id=12345")); reflexivity.
  - destruct (@metadata_default_and_shape rfc3339_datetime
                (fields_with_metadata JNull)) as (_ & _ & H).
    apply H; reflexivity.
Defined.

(** C9, as stated, fails on a [metadata] of [null]: it is present, it is
    not an object, and the body is accepted. *)
Lemma null_metadata_is_accepted :
  dict_get "metadata" (fields_with_metadata JNull) = Some JNull
  /\ is_object JNull = false
  /\ is_ok (model_validate rfc3339_datetime (payload_with_metadata JNull))
       = true.
Proof. repeat split. Qed.

(** C10.  In every state of the producer the [status] entry of the body
    of [GET /health] is ["healthy"]; between any two states, every entry
    of the body other than [kafka] is the same. *)
Theorem health_status_is_constant
    (settings : Config.Settings) (w : World) :
  dict_get "status" (health_body settings w) = Some (JStr "healthy")
  /\ forall (w' : World) (k : string),
       k <> "kafka" ->
       dict_get k (health_body settings w)
         = dict_get k (health_body settings w').
Proof.
  split; [reflexivity|].
  intros w' k Hk. unfold health_body. rewrite !health_check_eq. simpl.
  destruct (String.eqb k "status"); [reflexivity|].
  destruct (String.eqb k "service"); [reflexivity|].
  destruct (String.eqb k "version"); [reflexivity|].
  destruct (String.eqb k "kafka") eqn:E; [|reflexivity].
  apply String.eqb_eq in E. contradiction.
Qed.

Lemma health_status_is_constant_witness :
  dict_get "status" (health_body Config.defaults disconnected)
    = Some (JStr "healthy")
  /\ dict_get "service" (health_body Config.defaults disconnected)
       = dict_get "service"
           (health_body Config.defaults (connected_to acknowledging)).
Proof.
  destruct (health_status_is_constant Config.defaults disconnected)
    as [H1 H2].
  split; [exact H1|].
  apply (H2 (connected_to acknowledging) "service"). discriminate.
Defined.

(* ================================================================== *)
(** * Further properties of the service *)

(** ** The route, case by case *)

Lemma post_ingest_eq (vd : json -> ErrorType + datetime)
    (settings : Config.Settings) (payload : json) (w : World) :
  post_ingest vd settings payload w =
    match model_validate vd payload with
    | inl errors =>
        ({| status_code := 422;
            body := JObj [("detail", JArr (map error_json errors))] |}, w)
    | inr e =>
        match kafka_producer w with
        | None =>
            ({| status_code := 503;
                body := JObj [("detail",
                               JStr "Log ingestion service is temporarily unavailable. Kafka is not connected.")] |},
             with_log w LvError "Kafka producer is not available")
        | Some p =>
            let topic := Config.logs_topic settings in
            let value := JObj (log_data_of e) in
            match broker p topic value with
            | Acknowledged =>
                ({| status_code := 202;
                    body := JObj [("status", JStr "accepted");
                                  ("message", JStr "Log queued for processing")] |},
                 with_call w topic value)
            | RaisesKafkaError text =>
                ({| status_code := 503;
                    body := JObj [("detail",
                                   JStr ("Failed to queue log for processing: " ++ text))] |},
                 with_log (with_call w topic value) LvError
                   ("Kafka error during log ingestion: " ++ text))
            | RaisesException text =>
                ({| status_code := 500;
                    body := JObj [("detail",
                                   JStr "An unexpected error occurred while processing the log")] |},
                 with_log (with_call w topic value) LvError
                   ("Unexpected error during log ingestion: " ++ text))
            end
        end
    end.
Proof.
  unfold post_ingest.
  destruct (model_validate vd payload) as [errors|e]; [reflexivity|].
  destruct (kafka_producer w) as [p|] eqn:Hp.
  - rewrite (ingest_log_with_producer settings e w Hp).
    cbv zeta. destruct (broker p _ _); reflexivity.
  - now rewrite (ingest_log_no_producer settings e w Hp).
Qed.

Ltac route_cases vd settings payload w :=
  rewrite (post_ingest_eq vd settings payload w);
  destruct (model_validate vd payload) as [?errors|?e] eqn:?Hv;
  [|destruct (kafka_producer w) as [?p|] eqn:?Hp;
    [cbv zeta;
     destruct (broker _ (Config.logs_topic settings) _)
       as [|?text|?text] eqn:?Hb|]].

(** X1.  With the other fields valid, a body is accepted exactly when
    its [source] is a string of 1 to 255 characters; a [source] of any
    other type or length is rejected. *)
Theorem source_accepted_iff_1_to_255
    (vd : json -> ErrorType + datetime) (d : dict) (v : json) :
  is_ok (check_timestamp vd d) = true ->
  is_ok (check_level d) = true ->
  is_ok (check_message d) = true ->
  is_ok (check_metadata d) = true ->
  dict_get "source" d = Some v ->
  (is_ok (model_validate vd (JObj d)) = true
   <-> exists s, v = JStr s /\ (1 <= N.of_nat (String.length s) <= 255)%N).
Proof.
  intros H1 H3 H4 H5 G.
  rewrite model_validate_accepts_iff, H1, H3, H4, H5. cbn [andb].
  rewrite !andb_true_r. unfold check_source.
  rewrite required_field_present with (v := v) by exact G.
  apply source_accepts_iff.
Qed.

(** X2.  With the other fields valid, a body is accepted exactly when
    its [message] is a string of 1 to 10000 characters; a [message] of
    any other type or length is rejected. *)
Theorem message_accepted_iff_1_to_10000
    (vd : json -> ErrorType + datetime) (d : dict) (v : json) :
  is_ok (check_timestamp vd d) = true ->
  is_ok (check_source d) = true ->
  is_ok (check_level d) = true ->
  is_ok (check_metadata d) = true ->
  dict_get "message" d = Some v ->
  (is_ok (model_validate vd (JObj d)) = true
   <-> exists s, v = JStr s /\ (1 <= N.of_nat (String.length s) <= 10000)%N).
Proof.
  intros H1 H2 H3 H5 G.
  rewrite model_validate_accepts_iff, H1, H2, H3, H5. cbn [andb].
  rewrite !andb_true_r. unfold check_message.
  rewrite required_field_present with (v := v) by exact G.
  apply message_accepts_iff.
Qed.

Lemma required_str_inv (c : StrField) (name : string) (d : dict) (s : string) :
  required_field name d (validate_str c) = inr s ->
  dict_get name d = Some (JStr s).
Proof.
  unfold required_field. destruct (dict_get name d) as [v|]; [|discriminate].
  intros H. apply validate_str_inr_inv in H. now destruct H as [-> _].
Qed.

(** X3.  Validation changes no text: the [source], [level] and
    [message] of an accepted record are the strings of the body, as
    they came.  Its [metadata] is the object of the body, [None] for a
    [null], and the empty dict when the body has no [metadata]. *)
Theorem accepted_fields_pass_through
    (vd : json -> ErrorType + datetime) (payload : json) (e : LogCreate.t) :
  model_validate vd payload = inr e ->
  exists d,
    payload = JObj d
    /\ dict_get "source" d = Some (JStr (LogCreate.source e))
    /\ dict_get "level" d = Some (JStr (LogCreate.level e))
    /\ dict_get "message" d = Some (JStr (LogCreate.message e))
    /\ match dict_get "metadata" d with
       | None => LogCreate.metadata e = Some []
       | Some JNull => LogCreate.metadata e = None
       | Some (JObj m) => LogCreate.metadata e = Some m
       | Some _ => False
       end.
Proof.
  intros H. apply model_validate_inr_inv in H.
  destruct H as (d & -> & _ & H2 & H3 & H4 & H5).
  exists d. split; [reflexivity|].
  unfold check_source, check_level, check_message in *.
  apply required_str_inv in H2, H3, H4.
  repeat (split; [assumption|]).
  unfold check_metadata, defaulted_field in H5.
  destruct (dict_get "metadata" d) as [v|]; [|congruence].
  destruct v; simpl in H5; congruence.
Qed.




(** X6.  When the send fails with an error that is no Kafka error, the
    answer is status 500 with one fixed detail text, whatever the error
    says: the text of the error goes to the log only.  The client has
    been called once. *)
Theorem unexpected_send_error_is_500_without_its_text
    (vd : json -> ErrorType + datetime) (settings : Config.Settings)
    (payload : json) (log_entry : LogCreate.t) (w : World)
    (producer : AIOKafkaProducer) (text : string) :
  model_validate vd payload = inr log_entry ->
  kafka_producer w = Some producer ->
  let topic := Config.logs_topic settings in
  let value := JObj (log_data_of log_entry) in
  broker producer topic value = RaisesException text ->
  fst (post_ingest vd settings payload w) =
    {| status_code := 500;
       body := JObj [("detail",
                      JStr "An unexpected error occurred while processing the log")] |}
  /\ broker_calls (snd (post_ingest vd settings payload w)) =
       (broker_calls w ++ [(topic, value)])%list
  /\ log_lines (snd (post_ingest vd settings payload w)) =
       (log_lines w ++
        [(LvError,
          ("Unexpected error during log ingestion: " ++ text)%string)])%list.
Proof.
  intros Hv Hp topic value Hb.
  rewrite post_ingest_eq, Hv, Hp. cbv zeta. fold topic. fold value.
  rewrite Hb. repeat split.
Qed.

(** X7.  The handler lets no exception of the broker client escape: it
    returns the fixed acknowledgment or raises an [HTTPException] with
    status 503 or 500, so the global exception handler is never needed
    for it. *)
Theorem ingest_log_raises_only_http_503_or_500
    (settings : Config.Settings) (log_entry : LogCreate.t) (w : World) :
  match fst (ingest_log settings log_entry w) with
  | inr r => r = LogResponse.default
  | inl (HTTPException c _) => c = 503%Z \/ c = 500%Z
  | inl (KafkaError _) => False
  | inl (OtherError _) => False
  end.
Proof.
  destruct (kafka_producer w) as [p|] eqn:Hp.
  - rewrite (ingest_log_with_producer settings log_entry w Hp). cbv zeta.
    destruct (broker p _ _); simpl; auto.
  - rewrite (ingest_log_no_producer settings log_entry w Hp). simpl. auto.
Qed.

(** X8.  Neither route assigns the module global: after
    [POST /api/v1/logs/ingest] and after [GET /health] the producer is
    the one that was there before. *)
Theorem routes_leave_the_producer_in_place
    (vd : json -> ErrorType + datetime) (settings : Config.Settings)
    (payload : json) (w : World) :
  kafka_producer (snd (post_ingest vd settings payload w)) = kafka_producer w
  /\ kafka_producer (snd (get_health settings w)) = kafka_producer w.
Proof.
  split; [|reflexivity].
  route_cases vd settings payload w; simpl; congruence.
Qed.

(** X9.  A request makes one send, appended after the earlier ones,
    exactly when its body is valid and a producer is in place; in every
    other case the list of sends is unchanged. *)
Theorem one_send_iff_valid_and_connected
    (vd : json -> ErrorType + datetime) (settings : Config.Settings)
    (payload : json) (w : World) :
  broker_calls (snd (post_ingest vd settings payload w)) =
    match model_validate vd payload, kafka_producer w with
    | inr e, Some _ =>
        (broker_calls w
           ++ [(Config.logs_topic settings, JObj (log_data_of e))])%list
    | _, _ => broker_calls w
    end.
Proof.
  route_cases vd settings payload w; simpl; try rewrite Hp; reflexivity.
Qed.

(** X10.  The answers 202 and 422 write nothing to the log (the debug
    line of a successful ingest is below the configured level); the
    answers 503 and 500 write exactly one line, at level ERROR. *)
Theorem error_line_iff_503_or_500
    (vd : json -> ErrorType + datetime) (settings : Config.Settings)
    (payload : json) (w : World) :
  let r := fst (post_ingest vd settings payload w) in
  let w' := snd (post_ingest vd settings payload w) in
  (In (status_code r) [202; 422]%Z /\ log_lines w' = log_lines w)
  \/ (In (status_code r) [503; 500]%Z
      /\ exists text, log_lines w' = (log_lines w ++ [(LvError, text)])%list).
Proof.
  cbv zeta. route_cases vd settings payload w; simpl.
  - left. auto.
  - left. auto.
  - right. split; [auto|]. eexists. reflexivity.
  - right. split; [auto|]. eexists. reflexivity.
  - right. split; [auto|]. eexists. reflexivity.
Qed.

(** ** The lifecycle *)

Lemma serve_cons (vd : json -> ErrorType + datetime)
    (settings : Config.Settings) (payload : json) (rest : list json)
    (w : World) :
  serve vd settings (payload :: rest) w =
    (fst (post_ingest vd settings payload w)
       :: fst (serve vd settings rest (snd (post_ingest vd settings payload w))),
     snd (serve vd settings rest (snd (post_ingest vd settings payload w)))).
Proof.
  cbn [serve]. destruct (post_ingest vd settings payload w) as [r w1].
  cbn [fst snd]. now destruct (serve vd settings rest w1).
Qed.

Lemma post_ingest_producer (vd : json -> ErrorType + datetime)
    (settings : Config.Settings) (payload : json) (w : World) :
  kafka_producer (snd (post_ingest vd settings payload w)) = kafka_producer w.
Proof. route_cases vd settings payload w; simpl; congruence. Qed.

Lemma post_ingest_calls (vd : json -> ErrorType + datetime)
    (settings : Config.Settings) (payload : json) (w : World) :
  broker_calls (snd (post_ingest vd settings payload w)) =
    match model_validate vd payload, kafka_producer w with
    | inr e, Some _ =>
        (broker_calls w
           ++ [(Config.logs_topic settings, JObj (log_data_of e))])%list
    | _, _ => broker_calls w
    end.
Proof.
  route_cases vd settings payload w; simpl; try rewrite Hp; reflexivity.
Qed.

Lemma serve_producer (vd : json -> ErrorType + datetime)
    (settings : Config.Settings) (payloads : list json) (w : World) :
  kafka_producer (snd (serve vd settings payloads w)) = kafka_producer w.
Proof.
  revert w. induction payloads as [|payload rest IH]; intros w;
    [reflexivity|].
  rewrite serve_cons. cbn [snd]. now rewrite IH, post_ingest_producer.
Qed.

Lemma startup_eq (settings : Config.Settings) (o : StartOutcome) (w0 : World) :
  lifespan_startup settings o w0 =
    (inr tt,
     match o with
     | Started far_end =>
         {| kafka_producer :=
              Some {| bootstrap_servers := Config.kafka_bootstrap_servers settings;
                      compression_type := "gzip";
                      acks := "all";
                      broker := far_end |};
            broker_calls := broker_calls w0;
            log_lines :=
              (log_lines w0
                 ++ [(LvInfo, "Initializing Kafka producer...")]
                 ++ [(LvInfo,
                      "Kafka producer connected to "
                        ++ Config.kafka_bootstrap_servers settings)%string])%list |}
     | StartFails text =>
         {| kafka_producer := None;
            broker_calls := broker_calls w0;
            log_lines :=
              (log_lines w0
                 ++ [(LvInfo, "Initializing Kafka producer...")]
                 ++ [(LvError,
                      "Failed to initialize Kafka producer: " ++ text)%string])%list |}
     end).
Proof.
  destruct o; unfold lifespan_startup, bind, logger_log, set_kafka_producer;
    simpl; now rewrite <- List.app_assoc.
Qed.

(** X11.  The startup hook never fails, whether the producer starts or
    not, and makes no send; afterwards [GET /health] answers 200 with
    [kafka] set to ["connected"] after a successful start and to
    ["disconnected"] after a failed one. *)
Theorem startup_never_fails_and_health_reports_it
    (settings : Config.Settings) (o : StartOutcome) (w0 : World) :
  let w := snd (lifespan_startup settings o w0) in
  fst (lifespan_startup settings o w0) = inr tt
  /\ broker_calls w = broker_calls w0
  /\ status_code (fst (get_health settings w)) = 200%Z
  /\ dict_get "kafka" (health_body settings w)
       = Some (JStr match o with
                    | Started _ => "connected"
                    | StartFails _ => "disconnected"
                    end).
Proof.
  cbv zeta. rewrite startup_eq. unfold health_body.
  rewrite health_check_eq. destruct o; repeat split.
Qed.



(** X13.  After a successful start the producer is still in place
    after any number of requests, and the shutdown hook leaves it in the
    global and makes no send.  If [stop()] returns, both shutdown lines
    are logged; if it raises, the exception leaves the hook and only the
    first line is logged. *)
Theorem shutdown_closes_a_producer_still_in_place
    (vd : json -> ErrorType + datetime) (settings : Config.Settings)
    (far_end : string -> json -> SendOutcome) (payloads : list json)
    (o : StopOutcome) (w0 : World) :
  let w1 := snd (lifespan_startup settings (Started far_end) w0) in
  let w2 := snd (serve vd settings payloads w1) in
  let w3 := snd (lifespan_shutdown o w2) in
  kafka_producer w2 = kafka_producer w1
  /\ kafka_producer w3 = kafka_producer w1
  /\ broker_calls w3 = broker_calls w2
  /\ match o with
     | Stopped =>
         fst (lifespan_shutdown o w2) = inr tt
         /\ log_lines w3 =
              (log_lines w2
                 ++ [(LvInfo, "Closing Kafka producer...");
                     (LvInfo, "Kafka producer closed successfully")])%list
     | StopRaises text =>
         fst (lifespan_shutdown o w2) = inl (OtherError text)
         /\ log_lines w3 =
              (log_lines w2 ++ [(LvInfo, "Closing Kafka producer...")])%list
     end.
Proof.
  cbv zeta. rewrite startup_eq. cbn [snd].
  match goal with
  | |- context [serve vd settings payloads ?w] => set (w1 := w)
  end.
  pose proof (serve_producer vd settings payloads w1) as Hp.
  set (w2 := snd (serve vd settings payloads w1)) in *.
  split; [exact Hp|].
  unfold lifespan_shutdown, bind, get_kafka_producer. rewrite Hp.
  destruct o; simpl; rewrite ?Hp, <- ?List.app_assoc; repeat split.
Qed.

(** X14.  With a producer in place, requests handled one after the
    other are all answered, and the sends made are those of the valid
    bodies, one each, in the order of the requests, whatever the broker
    answers: none is lost, repeated or reordered. *)
Theorem sends_follow_the_valid_requests_in_order
    (vd : json -> ErrorType + datetime) (settings : Config.Settings)
    (payloads : list json) (w : World) (producer : AIOKafkaProducer) :
  kafka_producer w = Some producer ->
  List.length (fst (serve vd settings payloads w)) = List.length payloads
  /\ broker_calls (snd (serve vd settings payloads w)) =
       (broker_calls w
          ++ map (fun e => (Config.logs_topic settings, JObj (log_data_of e)))
               (accepted_entries vd payloads))%list.
Proof.
  revert w. induction payloads as [|payload rest IH]; intros w Hp.
  - split; [reflexivity|]. simpl. now rewrite List.app_nil_r.
  - rewrite serve_cons. cbn [fst snd List.length accepted_entries].
    assert (Hp' : kafka_producer (snd (post_ingest vd settings payload w))
                  = Some producer) by now rewrite post_ingest_producer.
    destruct (IH _ Hp') as [IH1 IH2]. split; [now rewrite IH1|].
    rewrite IH2, post_ingest_calls, Hp.
    destruct (model_validate vd payload); [reflexivity|].
    cbn [map]. now rewrite <- List.app_assoc.
Qed.


Lemma log_data_of_injective (e1 e2 : LogCreate.t) :
  well_formed (LogCreate.timestamp e1) = true ->
  well_formed (LogCreate.timestamp e2) = true ->
  finite_metadata e1 = true -> finite_metadata e2 = true ->
  log_data_of e1 = log_data_of e2 -> e1 = e2.
Proof.
  intros W1 W2 F1 F2 H. rewrite !log_data_of_eq in H.
  destruct e1 as [t1 s1 l1 m1 md1], e2 as [t2 s2 l2 m2 md2].
  unfold finite_metadata in F1, F2.
  cbn [LogCreate.timestamp LogCreate.source LogCreate.level
       LogCreate.message LogCreate.metadata] in *.
  injection H as Ht Hs Hl Hm Hmd.
  apply isoformat_reads_back in W1, W2.
  rewrite Ht in W1. rewrite W1 in W2. injection W2 as ->.
  subst. f_equal.
  destruct md1 as [d1|], md2 as [d2|]; try reflexivity;
    try discriminate Hmd.
  apply to_jsonable_finite in F1, F2. cbn [to_jsonable] in F1, F2.
  rewrite F1, F2 in Hmd. congruence.
Qed.

(** X16.  The value handed to the producer determines the record: two
    records with well-formed timestamps and no float in their metadata
    that is not finite, if they differ in any field, give different
    values.  (A float that is not finite is sent as [null], so it
    cannot be told from a [null].) *)
Theorem distinct_records_give_distinct_payloads (e1 e2 : LogCreate.t) :
  well_formed (LogCreate.timestamp e1) = true ->
  well_formed (LogCreate.timestamp e2) = true ->
  finite_metadata e1 = true -> finite_metadata e2 = true ->
  e1 <> e2 -> log_data_of e1 <> log_data_of e2.
Proof.
  intros W1 W2 F1 F2 Hne H. apply Hne. now apply log_data_of_injective.
Qed.

Lemma string_app_inv_head (a b c : string) : a ++ b = a ++ c -> b = c.
Proof. induction a; simpl; [auto|]. intros [= H]. auto. Qed.

Lemma abs_offset_whole_minutes (off : Z) :
  (off mod 60 = 0)%Z -> (Z.to_N (Z.abs off) mod 60 = 0)%N.
Proof.
  intros H. apply N2Z.inj. rewrite N2Z.inj_mod, Z2N.id by lia.
  apply Z.mod_divide in H; [|lia]. apply Z.mod_divide; [lia|].
  now apply Z.divide_abs_r.
Qed.

(** X17.  For a timestamp that is naive or has an offset of whole
    minutes, overwriting the dumped [timestamp] with [isoformat()]
    changes the value handed to the producer exactly when the offset is
    zero (where the dump has [Z] and [isoformat()] has [+00:00]); in
    every other such case the dumped dict is sent as it is. *)
Theorem overwrite_changes_only_a_zero_offset (e : LogCreate.t) :
  tz_well_formed (tzinfo (LogCreate.timestamp e)) = true ->
  (log_data_of e = model_dump_json e
   <-> tzinfo (LogCreate.timestamp e) <> Some 0%Z).
Proof.
  intros W.
  rewrite log_data_of_eq. unfold model_dump_json, isoformat, datetime_to_json.
  destruct (tzinfo (LogCreate.timestamp e)) as [off|];
    [|split; [discriminate|reflexivity]].
  unfold tz_well_formed in W. apply andb_true_iff in W. destruct W as [W _].
  apply Z.eqb_eq in W. apply abs_offset_whole_minutes in W.
  unfold dump_offset, format_offset. rewrite W. cbn [N.eqb].
  rewrite string_app_empty_r.
  destruct (off =? 0)%Z eqn:E.
  - apply Z.eqb_eq in E. subst off. split; [|congruence].
    intros H _. injection H as H.
    apply string_app_inv_head in H. discriminate H.
  - split; [|reflexivity]. intros _ H. injection H as ->. discriminate E.
Qed.

(** ** Instances of the theorems above that have hypotheses *)

Lemma source_accepted_iff_1_to_255_witness :
  (is_ok (model_validate rfc3339_datetime
            (JObj (fields_with_source (JStr (text_of_length 255))))) = true
   <-> exists s, JStr (text_of_length 255) = JStr s
                 /\ (1 <= N.of_nat (String.length s) <= 255)%N)
  /\ (is_ok (model_validate rfc3339_datetime
               (JObj (fields_with_source (JStr (text_of_length 256))))) = true
      <-> exists s, JStr (text_of_length 256) = JStr s
                    /\ (1 <= N.of_nat (String.length s) <= 255)%N).
Proof.
  split;
    apply (@source_accepted_iff_1_to_255 rfc3339_datetime); reflexivity.
Defined.

Lemma message_accepted_iff_1_to_10000_witness :
  is_ok (model_validate rfc3339_datetime
           (JObj (fields_with_message "disk full"))) = true
  <-> exists s, JStr "disk full" = JStr s
                /\ (1 <= N.of_nat (String.length s) <= 10000)%N.
Proof.
  apply (@message_accepted_iff_1_to_10000 rfc3339_datetime); reflexivity.
Defined.

Lemma accepted_fields_pass_through_witness :
  exists d,
    example_payload = JObj d
    /\ dict_get "source" d = Some (JStr "web-api")
    /\ dict_get "level" d = Some (JStr "ERROR")
    /\ dict_get "message" d = Some (JStr "Database connection timeout")
    /\ match dict_get "metadata" d with
       | None => LogCreate.metadata example_entry = Some []
       | Some JNull => LogCreate.metadata example_entry = None
       | Some (JObj m) => LogCreate.metadata example_entry = Some m
       | Some _ => False
       end.
Proof.
  apply (@accepted_fields_pass_through rfc3339_datetime example_payload
           example_entry).
  reflexivity.
Defined.



Lemma unexpected_send_error_is_500_without_its_text_witness :
  let w := connected_to (crashing "password=hunter2 rejected") in
  fst (post_ingest rfc3339_datetime Config.defaults example_payload w) =
    {| status_code := 500;
       body := JObj [("detail",
                      JStr "An unexpected error occurred while processing the log")] |}
  /\ broker_calls
       (snd (post_ingest rfc3339_datetime Config.defaults example_payload w)) =
       [("logs-raw", JObj (log_data_of example_entry))]
  /\ log_lines
       (snd (post_ingest rfc3339_datetime Config.defaults example_payload w)) =
       (log_lines w ++
        [(LvError,
          "Unexpected error during log ingestion: password=hunter2 rejected")])%list.
Proof.
  apply (@unexpected_send_error_is_500_without_its_text rfc3339_datetime
           Config.defaults example_payload example_entry
           (connected_to (crashing "password=hunter2 rejected"))
           (mk_producer "kafka:9092" "gzip" "all"
              (crashing "password=hunter2 rejected"))
           "password=hunter2 rejected");
    reflexivity.
Defined.

Lemma sends_follow_the_valid_requests_in_order_witness :
  let w := connected_to (failing "NotLeaderForPartitionError") in
  List.length (fst (serve rfc3339_datetime Config.defaults three_requests w))
    = 3
  /\ broker_calls (snd (serve rfc3339_datetime Config.defaults three_requests w))
     = (broker_calls w
          ++ map (fun e => ("logs-raw", JObj (log_data_of e)))
               (accepted_entries rfc3339_datetime three_requests))%list.
Proof.
  apply (@sends_follow_the_valid_requests_in_order rfc3339_datetime
           Config.defaults three_requests
           (connected_to (failing "NotLeaderForPartitionError"))
           (mk_producer "kafka:9092" "gzip" "all"
              (failing "NotLeaderForPartitionError"))).
  reflexivity.
Defined.


Lemma distinct_records_give_distinct_payloads_witness :
  log_data_of example_entry <> log_data_of example_entry_plus_one.
Proof.
  apply distinct_records_give_distinct_payloads;
    [reflexivity|reflexivity|reflexivity|reflexivity|discriminate].
Defined.

Lemma overwrite_changes_only_a_zero_offset_witness :
  (log_data_of example_entry = model_dump_json example_entry
   <-> tzinfo (LogCreate.timestamp example_entry) <> Some 0%Z)
  /\ (log_data_of example_entry_plus_one
        = model_dump_json example_entry_plus_one
      <-> tzinfo (LogCreate.timestamp example_entry_plus_one) <> Some 0%Z).
Proof.
  split; apply overwrite_changes_only_a_zero_offset; reflexivity.
Defined.
